(** * DetectionEngineering: MITRE technique catalog and alert-rule validation

    A shallow embedding of [src/Python/mitre.py] and
    [src/Python/validation/validation.py], together with the properties
    the specification states about them.

    Both scripts work on already-deserialised documents (the result of
    [response.json()] resp. [tomllib.load]), so the embedding starts from
    a type of dynamically typed Python values and gives the handful of
    Python operations the scripts apply to them, with the exceptions
    those operations raise on values of the wrong shape. *)

From Stdlib Require Import ZArith.
From stdpp Require Import gmap strings list fin_maps.

(** ** Python values and exceptions *)

Module Py.

(** Deserialised JSON / TOML data.  Dictionaries are keyed by strings, as
    both formats guarantee.  Strings are sequences of 8-bit characters.
    [VFloat m e] stands for the decimal [m * 10 ^ e]; [VDate] carries a
    TOML date-time in its textual form.  Neither is ever inspected by
    the scripts beyond its type. *)
#[warnings="-register-all"]
Inductive value : Type :=
  | VNone
  | VBool (b : bool)
  | VInt (n : Z)
  | VFloat (m e : Z)
  | VDate (iso : string)
  | VStr (s : string)
  | VList (l : list value)
  | VDict (d : gmap string value).

(** The exceptions that can leave the modelled code.  [SystemExit] is
    what [sys.exit(code)] raises.  [NonStringKey] is not a Python
    exception: it marks a dictionary store under a hashable key that is
    not a string, which the string-keyed [VDict] cannot represent.  The
    loop of [main] never performs one: it raises nothing but a
    [TypeError] or an [AttributeError] ([main_body_err_inv]). *)
Inductive exn : Type :=
  | TypeError
  | AttributeError
  | KeyError
  | SystemExit (code : Z)
  | NonStringKey.

Inductive result (A : Type) : Type :=
  | Ok (a : A)
  | Err (e : exn).
Arguments Ok {A} a.
Arguments Err {A} e.

(** Sequencing: an exception raised by the first computation skips the
    rest.  The instances give [result] the notation [x ← m; k]. *)
#[global] Instance result_ret : MRet result := @Ok.
#[global] Instance result_bind : MBind result := λ A B k m,
  match m with
  | Ok a => k a
  | Err e => Err e
  end.

(** [s.startswith(p)] on strings. *)
Definition str_startswith (s p : string) : bool := String.prefix p s.

(** [needle in hay] on strings: [needle] occurs as a substring. *)
Fixpoint str_contains (needle hay : string) : bool :=
  String.prefix needle hay ||
  match hay with
  | EmptyString => false
  | String _ rest => str_contains needle rest
  end.

(** The characters of a string, each as a one-character string. *)
Fixpoint str_chars (s : string) : list value :=
  match s with
  | EmptyString => []
  | String c rest => VStr (String c EmptyString) :: str_chars rest
  end.

(** [v == s] for a string literal [s]: only an equal string compares
    equal. *)
Definition eq_str (v : value) (s : string) : bool :=
  match v with
  | VStr t => bool_decide (t = s)
  | _ => false
  end.

(** Truth value of [v], as tested by [if v:] and [not v]. *)
Definition truthy (v : value) : bool :=
  match v with
  | VNone => false
  | VBool b => b
  | VInt n => negb (n =? 0)%Z
  | VFloat m _ => negb (m =? 0)%Z
  | VDate _ => true
  | VStr s => negb (bool_decide (s = ""))
  | VList l => negb (bool_decide (length l = 0))
  | VDict d => negb (bool_decide (size d = 0))
  end.

(** [o.get(k, default)]: only dictionaries have a [get] method. *)
Definition get (o : value) (k : string) (dflt : value) : result value :=
  match o with
  | VDict d => Ok (default dflt (d !! k))
  | _ => Err AttributeError
  end.

(** [k in o] for a string literal [k]: key membership in a dictionary,
    element membership in a list, substring test in a string; the other
    values are not containers. *)
Definition contains (k : string) (o : value) : result bool :=
  match o with
  | VDict d => Ok (bool_decide (is_Some (d !! k)))
  | VList l => Ok (existsb (λ v, eq_str v k) l)
  | VStr s => Ok (str_contains k s)
  | _ => Err TypeError
  end.

(** [o[k]] for a string literal [k]: lists and strings want integer
    indices, the other non-dictionaries are not subscriptable. *)
Definition getitem (o : value) (k : string) : result value :=
  match o with
  | VDict d =>
      match d !! k with
      | Some v => Ok v
      | None => Err KeyError
      end
  | _ => Err TypeError
  end.

(** The items [for x in o] runs through: the elements of a list, the
    characters of a string, the keys of a dictionary.  Python yields the
    keys in insertion order, which a [gmap] does not record; they come
    in the order of [map_to_list] here.  The scripts iterate a
    dictionary only to union sets or where every key makes the loop body
    raise the same exception. *)
Definition iter (o : value) : result (list value) :=
  match o with
  | VList l => Ok l
  | VStr s => Ok (str_chars s)
  | VDict d => Ok (VStr <$> (map_to_list d).*1)
  | _ => Err TypeError
  end.

(** [v.startswith(p)]: a method of strings only. *)
Definition startswith (v : value) (p : string) : result bool :=
  match v with
  | VStr s => Ok (str_startswith s p)
  | _ => Err AttributeError
  end.

(** [o.keys()] as a set: a method of dictionaries only. *)
Definition keys (o : value) : result (gset string) :=
  match o with
  | VDict d => Ok (dom d)
  | _ => Err AttributeError
  end.

(** [d[key] = v] on a dictionary [d]: lists and dictionaries are not
    hashable. *)
Definition setitem (d : gmap string value) (key v : value)
  : result (gmap string value) :=
  match key with
  | VStr k => Ok (<[k := v]> d)
  | VList _ | VDict _ => Err TypeError
  | _ => Err NonStringKey
  end.

(** A [for x in items:] loop whose body updates the loop state [s] and
    that has no [break]. *)
Fixpoint for_each {A S} (body : A → S → result S) (items : list A) (s : S)
  : result S :=
  match items with
  | [] => Ok s
  | x :: rest => s' ← body x s; for_each body rest s'
  end.

(** The exceptions Python raises on a value of the wrong shape. *)
Definition shape_error (e : exn) : Prop := e = TypeError ∨ e = AttributeError.

Definition is_dict (v : value) : bool :=
  match v with
  | VDict _ => true
  | _ => false
  end.

End Py.

(** ** [mitre.py] *)

Module Mitre.
Import Py.

(** The [for ref in ...] loop of [parse_attack_pattern] (lines 46-50),
    returning the final [(technique_id, technique_url)]; both start out
    as [None] and the loop stops at the first reference that sets
    them. *)
Fixpoint scan_references (refs : list value) : result (value * value) :=
  match refs with
  | [] => Ok (VNone, VNone)
  | ref :: rest =>
      has_id ← contains "external_id" ref;
      if has_id : bool then
        external_id ← getitem ref "external_id";
        is_t ← startswith external_id "T";
        if is_t : bool then
          technique_url ← get ref "url" VNone;
          Ok (external_id, technique_url)
        else scan_references rest
      else scan_references rest
  end.

(** The list comprehension of lines 56-59 over the items of
    [kill_chain_phases]. *)
Fixpoint collect_tactics (phases : list value) : result (list value) :=
  match phases with
  | [] => Ok []
  | tactic :: rest =>
      has_name ← contains "phase_name" tactic;
      if has_name : bool then
        phase_name ← getitem tactic "phase_name";
        tactics ← collect_tactics rest;
        Ok (phase_name :: tactics)
      else collect_tactics rest
  end.

(** The dictionary literal of lines 64-70. *)
Definition make_record (tactics : list value)
    (technique_id name technique_url deprecated : value) : value :=
  VDict (<["tactics" := VList tactics]>
        (<["technique" := technique_id]>
        (<["name" := name]>
        (<["url" := technique_url]>
        (<["deprecated" := deprecated]> ∅))))).

(** [parse_attack_pattern]: the record of the object, or [None] when no
    reference set [technique_id]. *)
Definition parse_attack_pattern (attack_pattern_obj : value) : result value :=
  has_refs ← contains "external_references" attack_pattern_obj;
  found ← (if has_refs : bool then
             external_references ← getitem attack_pattern_obj "external_references";
             refs ← iter external_references;
             scan_references refs
           else Ok (VNone, VNone));
  let '(technique_id, technique_url) := found in
  if negb (truthy technique_id) then Ok VNone
  else
    kill_chain_phases ← get attack_pattern_obj "kill_chain_phases" (VList []);
    phases ← iter kill_chain_phases;
    tactics ← collect_tactics phases;
    deprecated ← get attack_pattern_obj "x_mitre_deprecated" (VBool false);
    name ← get attack_pattern_obj "name" (VStr "N/A");
    Ok (make_record tactics technique_id name technique_url deprecated).

(** The body of the loop of [main] (lines 84-88), acting on
    [mitre_mapped]. *)
Definition main_body (obj : value) (mitre_mapped : gmap string value)
  : result (gmap string value) :=
  type ← get obj "type" VNone;
  if eq_str type "attack-pattern" then
    parsed_object ← parse_attack_pattern obj;
    if truthy parsed_object then
      technique ← getitem parsed_object "technique";
      setitem mitre_mapped technique parsed_object
    else Ok mitre_mapped
  else Ok mitre_mapped.

(** [main] from line 81 on, for the [mitre_data] that
    [fetch_mitre_data] returned: the catalog [mitre_mapped] it builds
    (line 90 prints its length). *)
Definition main (mitre_data : value) : result (gmap string value) :=
  objects ← get mitre_data "objects" (VList []);
  objs ← iter objects;
  for_each main_body objs ∅.

(** *** The input shapes of the specification's data model *)

(** An external reference: an object whose [external_id], if any, is a
    string. *)
Definition is_external_reference (ref : value) : bool :=
  match ref with
  | VDict r =>
      match r !! "external_id" with
      | None | Some (VStr _) => true
      | Some _ => false
      end
  | _ => false
  end.

(** A reference whose [external_id] is present and starts with "T". *)
Definition t_prefixed (ref : value) : bool :=
  match ref with
  | VDict r =>
      match r !! "external_id" with
      | Some (VStr s) => str_startswith s "T"
      | _ => false
      end
  | _ => false
  end.

(** An external reference that is not T-prefixed. *)
Definition other_reference (ref : value) : bool :=
  is_external_reference ref && negb (t_prefixed ref).

(** The references of an attack-pattern object: [external_references] is
    optional and a sequence of external references. *)
Definition references_of (o : gmap string value) : option (list value) :=
  match o !! "external_references" with
  | None => Some []
  | Some (VList refs) =>
      if forallb is_external_reference refs then Some refs else None
  | Some _ => None
  end.

(** Its kill-chain phases: [kill_chain_phases] is optional and a
    sequence of objects. *)
Definition phases_of (o : gmap string value) : option (list value) :=
  match o !! "kill_chain_phases" with
  | None => Some []
  | Some (VList phases) => if forallb is_dict phases then Some phases else None
  | Some _ => None
  end.

(** The [phase_name]s of the phases that have one, in order. *)
Definition tactics_of (phases : list value) : list value :=
  omap (λ phase, match phase with
                 | VDict p => p !! "phase_name"
                 | _ => None
                 end) phases.

(** An entry of a bundle: an object, well-shaped if it is an
    attack-pattern. *)
Definition is_bundle_object (obj : value) : bool :=
  match obj with
  | VDict o =>
      if eq_str (default VNone (o !! "type")) "attack-pattern" then
        bool_decide (is_Some (references_of o)) &&
        bool_decide (is_Some (phases_of o))
      else true
  | _ => false
  end.

(** A sequence of objects. *)
Definition is_object_sequence (objects : value) : bool :=
  match objects with
  | VList objs => forallb is_dict objs
  | _ => false
  end.

(** The two shapes of [objects] that are no sequence of objects and over
    which the loop of [main] nevertheless runs zero times: the empty
    string and the empty mapping. *)
Definition iterates_nothing (objects : value) : bool :=
  match objects with
  | VStr s => bool_decide (s = "")
  | VDict d => bool_decide (size d = 0)
  | _ => false
  end.

(** *** The catalog in the specification's words *)

(** The key and record a bundle entry resolves to: none unless it is an
    attack-pattern from which a record is derived. *)
Definition entry_of (obj : value) : option (string * value) :=
  match get obj "type" VNone with
  | Ok type =>
      if eq_str type "attack-pattern" then
        match parse_attack_pattern obj with
        | Ok (VDict d) =>
            match d !! "technique" with
            | Some (VStr technique_id) => Some (technique_id, VDict d)
            | _ => None
            end
        | _ => None
        end
      else None
  | Err _ => None
  end.

(** A fold over the entries in order, a later entry overwriting an
    earlier one under the same key. *)
Definition last_write_wins (entries : list (string * value))
  : gmap string value :=
  foldl (λ catalog entry, <[entry.1 := entry.2]> catalog) ∅ entries.

(** *** The rest of [main] *)

(** The number line 90 prints: [len(mitre_mapped)]. *)
Definition reported_count (mitre_data : value) : result nat :=
  mitre_mapped ← main mitre_data;
  Ok (size mitre_mapped).

(** An object whose [type] is "attack-pattern". *)
Definition is_attack_pattern (obj : value) : bool :=
  match obj with
  | VDict o => eq_str (default VNone (o !! "type")) "attack-pattern"
  | _ => false
  end.

(** The keys of an attack-pattern object that [parse_attack_pattern]
    reads. *)
Definition parsed_keys : list string :=
  ["external_references"; "kill_chain_phases"; "x_mitre_deprecated"; "name"].

(** The keys of the dictionary literal of lines 64-70. *)
Definition record_keys : gset string :=
  {[ "tactics"; "technique"; "name"; "url"; "deprecated" ]}.

End Mitre.

(** ** [validation/validation.py] *)

Module Validation.
Import Py.

(** What the script writes to standard output, one constructor per
    [print] call, carrying the values its f-string interpolates. *)
Inductive message : Type :=
  | UnknownRuleTypeWarning (rule_type : value)
  | RuleNotFoundError (file_path : string)
  | MissingFieldsReport (file_path : string) (missing_fields : list string)
  | ValidationPassed (file_path : string).

(** A computation that prints and then returns or raises. *)
Record io (A : Type) : Type := IO {
  printed : list message;
  outcome : result A
}.
Arguments IO {A} printed outcome.
Arguments printed {A} _.
Arguments outcome {A} _.

#[global] Instance io_ret : MRet io := λ A a, IO [] (Ok a).
#[global] Instance io_bind : MBind io := λ A B k m,
  match outcome m with
  | Ok a => IO (printed m ++ printed (k a)) (outcome (k a))
  | Err e => IO (printed m) (Err e)
  end.

Definition print (m : message) : io unit := IO [m] (Ok tt).
Definition lift {A} (r : result A) : io A := IO [] r.
Definition sys_exit {A} (code : Z) : io A := IO [] (Err (SystemExit code)).

Definition base_fields : list string :=
  ["description"; "name"; "risk_score"; "severity"; "type"].

Definition get_required_fields (rule_type : value) : io (list string) :=
  if eq_str rule_type "query" then
    mret (base_fields ++ ["query"])
  else if eq_str rule_type "eql" then
    mret (base_fields ++ ["query"; "language"])
  else if eq_str rule_type "threshold" then
    mret (base_fields ++ ["query"; "threshold"])
  else
    _ ← print (UnknownRuleTypeWarning rule_type);
    mret base_fields.

(** The body of the loop of lines 51-52, acting on [present_fields]. *)
Definition present_body (alert_config : gmap string value)
    (table_name : string) (present_fields : gset string)
  : result (gset string) :=
  table ← getitem (VDict alert_config) table_name;
  table_keys ← keys table;
  Ok (present_fields ∪ table_keys).

(** [alert_config] is what [tomllib.load] returned, always a dictionary;
    its values are whatever the TOML file has at top level.  The final
    [print] is the report: [ValidationPassed] when [missing_fields] is
    empty, [MissingFieldsReport] otherwise. *)
Definition validate_alert_config (alert_config : gmap string value)
    (file_path : string) : io unit :=
  has_rule ← lift (contains "rule" (VDict alert_config));
  undeclared ← (if has_rule : bool then
                  rule ← lift (getitem (VDict alert_config) "rule");
                  has_type ← lift (contains "type" rule);
                  mret (negb has_type)
                else mret true);
  if undeclared : bool then
    _ ← print (RuleNotFoundError file_path);
    sys_exit 1
  else
    rule ← lift (getitem (VDict alert_config) "rule");
    rule_type ← lift (getitem rule "type");
    required_fields ← get_required_fields rule_type;
    present_fields ← lift (for_each (present_body alert_config)
                             (map_to_list alert_config).*1 ∅);
    let missing_fields :=
      filter (λ field, field ∉ present_fields) required_fields in
    if bool_decide (missing_fields = []) then
      print (ValidationPassed file_path)
    else
      print (MissingFieldsReport file_path missing_fields).

(** *** The input shapes of the specification's data model *)

(** A config document: every top-level entry is a table. *)
Definition is_config_document (alert_config : gmap string value) : bool :=
  forallb is_dict (map_to_list alert_config).*2.

(** The precondition of validation: a table [rule] with a field
    [type]. *)
Definition declares_rule_type (alert_config : gmap string value) : bool :=
  match alert_config !! "rule" with
  | Some (VDict rule) => bool_decide (is_Some (rule !! "type"))
  | _ => false
  end.

(** *** The report in the specification's words *)

(** The field names of a table. *)
Definition table_fields (table : value) : gset string :=
  match table with
  | VDict t => dom t
  | _ => ∅
  end.

(** The union of the key sets of all top-level tables. *)
Definition flattened_fields (alert_config : gmap string value) : gset string :=
  ⋃ (table_fields <$> (map_to_list alert_config).*2).

(** The required fields absent from the union, in the order of the
    required-field list. *)
Definition missing_from (alert_config : gmap string value)
    (required : list string) : list string :=
  filter (λ field, field ∉ flattened_fields alert_config) required.

(** The report for a list of missing fields; an empty list means the
    validation passed. *)
Definition report (file_path : string) (missing_fields : list string)
  : message :=
  match missing_fields with
  | [] => ValidationPassed file_path
  | _ => MissingFieldsReport file_path missing_fields
  end.

(** The seven field names the script can ask for. *)
Definition known_fields : list string :=
  base_fields ++ ["query"; "language"; "threshold"].

(** A field of the document: a key of one of its top-level tables. *)
Definition has_field (alert_config : gmap string value) (field : string)
  : Prop :=
  ∃ t table, alert_config !! t = Some (VDict table) ∧ is_Some (table !! field).

End Validation.

(** ** Sample inputs *)

Module Samples.
Import Py Mitre Validation.

Definition capec_reference : value :=
  VDict {[ "source_name" := VStr "capec"; "external_id" := VStr "CAPEC-13" ]}.

Definition t1001_reference : gmap string value :=
  {[ "external_id" := VStr "T1001";
     "url" := VStr "https://attack.mitre.org/techniques/T1001" ]}.

Definition t1001_bare_reference : gmap string value :=
  {[ "source_name" := VStr "mitre-attack"; "external_id" := VStr "T1001" ]}.

Definition t1002_reference : value :=
  VDict {[ "external_id" := VStr "T1002";
           "url" := VStr "https://attack.mitre.org/techniques/T1002" ]}.

Definition execution_phases : list value :=
  [VDict ∅; VDict {[ "phase_name" := VStr "execution" ]}].

(** Two T-prefixed references, after one that is not. *)
Definition obfuscation : gmap string value :=
  {[ "type" := VStr "attack-pattern";
     "name" := VStr "Data Obfuscation";
     "external_references" :=
       VList [capec_reference; VDict t1001_reference; t1002_reference];
     "kill_chain_phases" := VList execution_phases ]}.

(** The same technique, its reference without a [url]. *)
Definition obfuscation_revised : gmap string value :=
  {[ "type" := VStr "attack-pattern";
     "name" := VStr "Data Obfuscation (revised)";
     "x_mitre_deprecated" := VBool true;
     "external_references" := VList [VDict t1001_bare_reference] ]}.

Definition obfuscation_record : value :=
  make_record [VStr "execution"] (VStr "T1001") (VStr "Data Obfuscation")
    (VStr "https://attack.mitre.org/techniques/T1001") (VBool false).

Definition obfuscation_revised_record : value :=
  make_record [] (VStr "T1001") (VStr "Data Obfuscation (revised)")
    VNone (VBool true).

(** An attack-pattern without any T-prefixed reference. *)
Definition untracked : gmap string value :=
  {[ "type" := VStr "attack-pattern";
     "external_references" := VList [capec_reference] ]}.

Definition identity : value :=
  VDict {[ "type" := VStr "identity"; "name" := VStr "The MITRE Corporation" ]}.

(** An attack-pattern whose [external_references] is [null]. *)
Definition unreferenced : value :=
  VDict {[ "type" := VStr "attack-pattern"; "external_references" := VNone ]}.

(** A reference with a numeric [external_id]. *)
Definition numbered_reference : gmap string value :=
  {[ "source_name" := VStr "internal"; "external_id" := VInt 1001 ]}.

Definition bundle : gmap string value :=
  {[ "type" := VStr "bundle";
     "objects" := VList [VDict obfuscation; identity; VDict untracked;
                         VDict obfuscation_revised; identity] ]}.

(** The configuration of the specification's example: a [query] rule
    without a [query] field. *)
Definition alert_without_query : gmap string value :=
  {[ "rule" := VDict {[ "type" := VStr "query";
                        "name" := VStr "X";
                        "description" := VStr "d";
                        "risk_score" := VInt 1;
                        "severity" := VStr "low" ]} ]}.

(** A rule of a type the script does not know, its fields spread over
    two tables. *)
Definition alert_of_unknown_type : gmap string value :=
  {[ "metadata" := VDict {[ "name" := VStr "X"; "severity" := VStr "low" ]};
     "rule" := VDict {[ "type" := VStr "machine_learning";
                        "description" := VStr "d" ]} ]}.

(** A TOML file with a key outside any table: no config document. *)
Definition alert_with_title : gmap string value :=
  {[ "title" := VStr "X";
     "rule" := VDict {[ "type" := VStr "query"; "query" := VStr "q" ]} ]}.

(** The example with its [query], in a table of its own. *)
Definition alert_with_query : gmap string value :=
  <["search" := VDict {[ "query" := VStr "process.name : cmd.exe" ]}]>
    alert_without_query.

(** The example's field names with other values, in two tables. *)
Definition alert_without_query_relaid : gmap string value :=
  {[ "metadata" := VDict {[ "description" := VStr "";
                            "risk_score" := VInt 99;
                            "severity" := VStr "high" ]};
     "rule" := VDict {[ "type" := VStr "query"; "name" := VStr "Y" ]} ]}.

(** A document whose [rule] is a string. *)
Definition alert_with_rule_text : gmap string value :=
  {[ "rule" := VStr "type = query" ]}.

(** A document with a [rule] table that declares no [type]. *)
Definition alert_without_type : gmap string value :=
  {[ "metadata" := VDict {[ "type" := VStr "query" ]};
     "rule" := VDict {[ "name" := VStr "X" ]} ]}.

End Samples.

(** ** Facts about the Python operations *)

Module PyFacts.
Import Py.

Lemma bind_ok {A B} (m : result A) (k : A → result B) (b : B) :
  (m ≫= k) = Ok b → ∃ a, m = Ok a ∧ k a = Ok b.
Proof. destruct m as [a|e]; [by exists a | done]. Qed.

Lemma startswith_nonempty (s p : string) :
  p ≠ "" → str_startswith s p → s ≠ "".
Proof. intros Hp Hs ->. by destruct p. Qed.

Lemma startswith_truthy (s : string) :
  str_startswith s "T" → truthy (VStr s) = true.
Proof.
  intros Hs. cbn. rewrite bool_decide_eq_false_2; [done|].
  by apply (startswith_nonempty s "T").
Qed.

Lemma startswith_ok_inv (v : value) (p : string) :
  startswith v p = Ok true → ∃ s, v = VStr s ∧ str_startswith s p.
Proof.
  destruct v; try done. cbn. intros [= Hs]. eexists; split; [done|].
  by rewrite Hs.
Qed.

Lemma is_dict_inv (v : value) : is_dict v → ∃ d, v = VDict d.
Proof. destruct v; try done. by eexists. Qed.

End PyFacts.

(** ** Facts about [mitre.py] *)

Module MitreFacts.
Import Py PyFacts Mitre.

(** *** Scanning the external references *)

Lemma scan_other (ref : value) (rest : list value) :
  other_reference ref →
  scan_references (ref :: rest) = scan_references rest.
Proof.
  unfold other_reference, is_external_reference, t_prefixed.
  destruct ref as [| | | | | |l|r]; try done.
  cbn. destruct (r !! "external_id") as [[]|] eqn:Hid; try done.
  rewrite bool_decide_eq_true_2; [|by eexists]. cbn.
  by destruct (str_startswith s "T").
Qed.

Lemma scan_t_prefixed (r : gmap string value) (s : string) (rest : list value) :
  r !! "external_id" = Some (VStr s) → str_startswith s "T" →
  scan_references (VDict r :: rest) = Ok (VStr s, default VNone (r !! "url")).
Proof.
  intros Hid Hs. cbn. rewrite Hid.
  rewrite bool_decide_eq_true_2; [|by eexists]. cbn.
  by destruct (str_startswith s "T").
Qed.

Lemma scan_first (pre post : list value) (r : gmap string value) (s : string) :
  Forall other_reference pre →
  r !! "external_id" = Some (VStr s) → str_startswith s "T" →
  scan_references (pre ++ VDict r :: post)
  = Ok (VStr s, default VNone (r !! "url")).
Proof.
  intros Hpre Hid Hs. induction Hpre as [|ref pre Href _ IH].
  - by apply scan_t_prefixed.
  - rewrite <-app_comm_cons, scan_other; done.
Qed.

Lemma scan_none (refs : list value) :
  Forall other_reference refs → scan_references refs = Ok (VNone, VNone).
Proof.
  induction 1 as [|ref refs Href _ IH]; [done|]. by rewrite scan_other.
Qed.

Lemma scan_ok_inv (refs : list value) (technique_id technique_url : value) :
  scan_references refs = Ok (technique_id, technique_url) →
  (technique_id = VNone ∧ technique_url = VNone) ∨
  (∃ s, technique_id = VStr s ∧ str_startswith s "T").
Proof.
  induction refs as [|ref refs IH]; cbn; [intros [= <- <-]; by left|].
  destruct (contains "external_id" ref) as [[]|]; cbn; [|done..].
  destruct (getitem ref "external_id") as [external_id|]; cbn; [|done].
  destruct (startswith external_id "T") as [[]|] eqn:Hs; cbn; [|done..].
  destruct (get ref "url" VNone); cbn; [|done].
  intros [= <- <-]. right. by apply startswith_ok_inv.
Qed.

(** *** Collecting the tactics *)

Lemma collect_tactics_dicts (phases : list value) :
  forallb is_dict phases →
  collect_tactics phases = Ok (tactics_of phases).
Proof.
  induction phases as [|phase phases IH]; [done|].
  cbn [forallb]. intros [Hd Hrest]%andb_True.
  apply is_dict_inv in Hd as [p ->]. cbn.
  destruct (p !! "phase_name") as [name|] eqn:Hname.
  - rewrite bool_decide_eq_true_2; [|by eexists]. cbn.
    by rewrite (IH Hrest).
  - rewrite bool_decide_eq_false_2; [|by intros [? ?]]. by apply IH.
Qed.

(** *** The record *)

Lemma make_record_technique tactics technique_id name url deprecated d :
  make_record tactics technique_id name url deprecated = VDict d →
  d !! "technique" = Some technique_id.
Proof. intros [= <-]. by simplify_map_eq. Qed.

Lemma make_record_url tactics technique_id name url deprecated d :
  make_record tactics technique_id name url deprecated = VDict d →
  d !! "url" = Some url.
Proof. intros [= <-]. by simplify_map_eq. Qed.

Lemma make_record_truthy tactics technique_id name url deprecated :
  truthy (make_record tactics technique_id name url deprecated) = true.
Proof.
  cbn. rewrite bool_decide_eq_false_2; [done|].
  rewrite map_size_empty_iff. apply insert_non_empty.
Qed.

(** *** Parsing one attack-pattern object *)

Lemma phases_of_iter (o : gmap string value) (phases : list value) :
  phases_of o = Some phases →
  iter (default (VList []) (o !! "kill_chain_phases")) = Ok phases ∧
  forallb is_dict phases.
Proof.
  unfold phases_of. destruct (o !! "kill_chain_phases") as [[]|]; try done.
  - destruct (forallb is_dict l) eqn:Hl; [|done].
    intros [= <-]. by rewrite Hl.
  - by intros [= <-].
Qed.

(** Whatever the object, a result is [None] or a record under a
    T-prefixed identifier. *)
Lemma parse_ok_inv (obj rec : value) :
  parse_attack_pattern obj = Ok rec →
  rec = VNone ∨
  ∃ tactics s name url deprecated,
    rec = make_record tactics (VStr s) name url deprecated ∧
    str_startswith s "T".
Proof.
  unfold parse_attack_pattern. intros H.
  apply bind_ok in H as (has_refs & _ & H).
  apply bind_ok in H as ([technique_id technique_url] & Hfound & H).
  assert ((technique_id = VNone ∧ technique_url = VNone) ∨
          (∃ s, technique_id = VStr s ∧ str_startswith s "T"))
    as [[-> ->]|(s & -> & Hs)].
  { destruct has_refs; [|injection Hfound as <- <-; by left].
    apply bind_ok in Hfound as (? & _ & Hfound).
    apply bind_ok in Hfound as (refs & _ & Hfound).
    by eapply scan_ok_inv. }
  - cbn in H. injection H as <-. by left.
  - rewrite (startswith_truthy s Hs) in H. cbn [negb] in H.
    apply bind_ok in H as (? & _ & H).
    apply bind_ok in H as (? & _ & H).
    apply bind_ok in H as (tactics & _ & H).
    apply bind_ok in H as (deprecated & _ & H).
    apply bind_ok in H as (name & _ & H).
    injection H as <-. right. by eexists _, _, _, _, _.
Qed.

(** The record derived from an object whose first T-prefixed reference
    is [r], whatever follows it. *)
Lemma parse_first (o r : gmap string value) (pre post phases : list value)
    (s : string) :
  o !! "external_references" = Some (VList (pre ++ VDict r :: post)) →
  Forall other_reference pre →
  r !! "external_id" = Some (VStr s) → str_startswith s "T" →
  phases_of o = Some phases →
  parse_attack_pattern (VDict o)
  = Ok (make_record (tactics_of phases) (VStr s)
          (default (VStr "N/A") (o !! "name"))
          (default VNone (r !! "url"))
          (default (VBool false) (o !! "x_mitre_deprecated"))).
Proof.
  intros Hrefs Hpre Hid Hs [Hiter Hdicts]%phases_of_iter.
  unfold parse_attack_pattern. cbn. rewrite Hrefs.
  rewrite bool_decide_eq_true_2; [|by eexists]. cbn.
  rewrite (scan_first pre post r s Hpre Hid Hs). cbn.
  rewrite bool_decide_eq_false_2; [|by apply (startswith_nonempty s "T")].
  cbn. rewrite Hiter. cbn. by rewrite (collect_tactics_dicts phases Hdicts).
Qed.

(** No record, and no exception, from an object none of whose
    references is T-prefixed. *)
Lemma parse_none (o : gmap string value) (refs : list value) :
  references_of o = Some refs →
  forallb (λ ref, negb (t_prefixed ref)) refs →
  parse_attack_pattern (VDict o) = Ok VNone.
Proof.
  unfold references_of, parse_attack_pattern. cbn.
  destruct (o !! "external_references") as [[]|] eqn:Hrefs; try done.
  destruct (forallb is_external_reference l) eqn:Hl; [|done].
  intros [= ->] Hnone.
  rewrite bool_decide_eq_true_2; [|by eexists]. cbn.
  rewrite scan_none; [done|].
  apply Is_true_true_2, forallb_True in Hl.
  apply forallb_True in Hnone.
  rewrite Forall_forall in Hl, Hnone. apply Forall_forall.
  intros ref Href. unfold other_reference. apply andb_True. auto.
Qed.

Lemma split_first_t (refs : list value) :
  forallb is_external_reference refs →
  forallb (λ ref, negb (t_prefixed ref)) refs ∨
  ∃ pre r s post,
    refs = pre ++ VDict r :: post ∧ Forall other_reference pre ∧
    r !! "external_id" = Some (VStr s) ∧ str_startswith s "T".
Proof.
  induction refs as [|ref refs IH]; [by left|].
  cbn [forallb]. intros [Href Hrefs]%andb_True.
  destruct (t_prefixed ref) eqn:Ht.
  - right. unfold t_prefixed in Ht.
    destruct ref as [| | | | | | |r]; try done.
    destruct (r !! "external_id") as [[]|] eqn:Hid; try done.
    exists [], r, s, refs. split_and!; [done..|by apply Is_true_true_2].
  - destruct (IH Hrefs) as [Hnone|(pre & r & s & post & -> & Hpre & Hid & Hs)].
    + left. by apply andb_True.
    + right. exists (ref :: pre), r, s, post. split_and!; try done.
      constructor; [|done]. unfold other_reference. rewrite Ht.
      by apply andb_True.
Qed.

(** On an object of the data model parsing raises nothing. *)
Lemma parse_total (o : gmap string value) :
  is_Some (references_of o) → is_Some (phases_of o) →
  ∃ rec, parse_attack_pattern (VDict o) = Ok rec.
Proof.
  intros [refs Hrefs] [phases Hphases].
  assert (forallb is_external_reference refs ∧
          (refs = [] ∨ o !! "external_references" = Some (VList refs)))
    as [Hwf Hlookup].
  { unfold references_of in Hrefs.
    destruct (o !! "external_references") as [[]|]; try done.
    - destruct (forallb is_external_reference l) eqn:Hl; [|done].
      injection Hrefs as <-. rewrite Hl. auto.
    - injection Hrefs as <-. auto. }
  destruct (split_first_t refs Hwf)
    as [Hnone|(pre & r & s & post & -> & Hpre & Hid & Hs)].
  - eexists. by eapply parse_none.
  - destruct Hlookup as [Hnil|Hlookup]; [by destruct pre|].
    eexists. by eapply parse_first.
Qed.

(** Parsing raises nothing but shape errors. *)
Lemma contains_getitem_err (k : string) (o : value) (e : exn) :
  contains k o = Ok true → getitem o k = Err e → shape_error e.
Proof.
  destruct o; cbn; try done; try (intros _ [= <-]; by left).
  by destruct (d !! k).
Qed.

Lemma contains_err_inv (k : string) (o : value) (e : exn) :
  contains k o = Err e → shape_error e.
Proof. destruct o; try done; intros [= <-]; by left. Qed.

Lemma startswith_err_inv (v : value) (p : string) (e : exn) :
  startswith v p = Err e → shape_error e.
Proof. destruct v; try done; intros [= <-]; by right. Qed.

Lemma get_err_inv (o : value) (k : string) (dflt : value) (e : exn) :
  get o k dflt = Err e → shape_error e.
Proof. destruct o; try done; intros [= <-]; by right. Qed.

Lemma iter_err_inv (o : value) (e : exn) : iter o = Err e → shape_error e.
Proof. destruct o; try done; intros [= <-]; by left. Qed.

Lemma scan_err_inv (refs : list value) (e : exn) :
  scan_references refs = Err e → shape_error e.
Proof.
  induction refs as [|ref refs IH]; cbn; [done|].
  destruct (contains "external_id" ref) as [[]|] eqn:Hc; cbn; [|done|].
  - destruct (getitem ref "external_id") as [external_id|] eqn:Hg; cbn.
    + destruct (startswith external_id "T") as [[]|] eqn:Hs; cbn; [|done|].
      * destruct (get ref "url" VNone) eqn:Hu; cbn; [done|].
        intros [= <-]. by eapply get_err_inv.
      * intros [= <-]. by eapply startswith_err_inv.
    + intros [= <-]. by eapply contains_getitem_err.
  - intros [= <-]. by eapply contains_err_inv.
Qed.

Lemma collect_err_inv (phases : list value) (e : exn) :
  collect_tactics phases = Err e → shape_error e.
Proof.
  induction phases as [|phase phases IH]; cbn; [done|].
  destruct (contains "phase_name" phase) as [[]|] eqn:Hc; cbn; [|done|].
  - destruct (getitem phase "phase_name") eqn:Hg; cbn.
    + destruct (collect_tactics phases); cbn; [done|].
      intros [= <-]. by apply IH.
    + intros [= <-]. by eapply contains_getitem_err.
  - intros [= <-]. by eapply contains_err_inv.
Qed.

Lemma parse_err_inv (obj : value) (e : exn) :
  parse_attack_pattern obj = Err e → shape_error e.
Proof.
  unfold parse_attack_pattern.
  destruct (contains "external_references" obj) as [has_refs|] eqn:Hc; cbn.
  2: { intros [= <-]. by eapply contains_err_inv. }
  destruct (if has_refs then _ else _) as [[technique_id technique_url]|e']
    eqn:Hfound; cbn.
  2: { intros [= <-]. destruct has_refs; [|done].
       destruct (getitem obj "external_references") eqn:Hg; cbn in Hfound.
       - destruct (iter a) eqn:Hi; cbn in Hfound.
         + by eapply scan_err_inv.
         + injection Hfound as <-. by eapply iter_err_inv.
       - injection Hfound as <-. by eapply contains_getitem_err. }
  destruct (negb (truthy technique_id)); [done|].
  destruct (get obj "kill_chain_phases" (VList [])) as [kcp|] eqn:Hk; cbn.
  2: { intros [= <-]. by eapply get_err_inv. }
  destruct (iter kcp) as [phases|] eqn:Hi; cbn.
  2: { intros [= <-]. by eapply iter_err_inv. }
  destruct (collect_tactics phases) eqn:Ht; cbn.
  2: { intros [= <-]. by eapply collect_err_inv. }
  destruct (get obj "x_mitre_deprecated" (VBool false)) eqn:Hd; cbn.
  2: { intros [= <-]. by eapply get_err_inv. }
  destruct (get obj "name" (VStr "N/A")) eqn:Hn; cbn; [done|].
  intros [= <-]. by eapply get_err_inv.
Qed.

(** *** The loop of [main] *)

Lemma entry_of_inv (obj rec : value) (k : string) :
  entry_of obj = Some (k, rec) →
  get obj "type" VNone = Ok (VStr "attack-pattern") ∧
  parse_attack_pattern obj = Ok rec ∧
  str_startswith k "T" ∧
  ∃ d, rec = VDict d ∧ d !! "technique" = Some (VStr k).
Proof.
  unfold entry_of.
  destruct (get obj "type" VNone) as [type|]; [|done].
  destruct (eq_str type "attack-pattern") eqn:Htype; [|done].
  destruct type; try done. cbn in Htype. apply bool_decide_eq_true in Htype as ->.
  destruct (parse_attack_pattern obj) as [[]|] eqn:Hparse; try done.
  destruct (d !! "technique") as [[]|] eqn:Htech; try done.
  intros [= <- <-]. split_and!; [done..| |by eexists].
  apply parse_ok_inv in Hparse as [|(? & s' & ? & ? & ? & Hrec & Hs)]; [done|].
  symmetry in Hrec. apply make_record_technique in Hrec. congruence.
Qed.

Lemma main_body_ok_inv (obj : value) (cat cat' : gmap string value) :
  main_body obj cat = Ok cat' →
  cat' = match entry_of obj with
         | Some entry => <[entry.1 := entry.2]> cat
         | None => cat
         end.
Proof.
  unfold main_body, entry_of.
  destruct (get obj "type" VNone) as [type|]; cbn; [|done].
  destruct (eq_str type "attack-pattern"); [|by intros [= <-]].
  destruct (parse_attack_pattern obj) as [rec|] eqn:Hparse; cbn; [|done].
  apply parse_ok_inv in Hparse as [->|(? & s & ? & ? & ? & -> & Hs)].
  - cbn. by intros [= <-].
  - rewrite make_record_truthy. unfold make_record. cbn.
    simplify_map_eq. cbn. by intros [= <-].
Qed.

Lemma main_body_err_inv (obj : value) (cat : gmap string value) (e : exn) :
  main_body obj cat = Err e → shape_error e.
Proof.
  unfold main_body.
  destruct (get obj "type" VNone) as [type|] eqn:Hget; cbn.
  2: { intros [= <-]. by eapply get_err_inv. }
  destruct (eq_str type "attack-pattern"); [|done].
  destruct (parse_attack_pattern obj) as [rec|] eqn:Hparse; cbn.
  2: { intros [= <-]. by eapply parse_err_inv. }
  apply parse_ok_inv in Hparse as [->|(? & s & ? & ? & ? & -> & Hs)]; [done|].
  rewrite make_record_truthy. unfold make_record. cbn. by simplify_map_eq.
Qed.

Lemma main_body_total (obj : value) (cat : gmap string value) :
  is_bundle_object obj → ∃ cat', main_body obj cat = Ok cat'.
Proof.
  intros Hobj. destruct obj as [| | | | | | |o]; try done.
  unfold is_bundle_object in Hobj.
  unfold main_body. cbn [get mbind result_bind].
  destruct (eq_str _ "attack-pattern"); [|by eexists].
  apply andb_True in Hobj as [Hrefs%bool_decide_unpack Hphases%bool_decide_unpack].
  destruct (parse_total o Hrefs Hphases) as [rec Hparse].
  rewrite Hparse. cbn [mbind result_bind].
  apply parse_ok_inv in Hparse as [->|(? & s & ? & ? & ? & -> & Hs)];
    [by eexists|].
  rewrite make_record_truthy. unfold make_record. cbn.
  simplify_map_eq. by eexists.
Qed.

Lemma main_loop_fold (objs : list value) (cat cat' : gmap string value) :
  for_each main_body objs cat = Ok cat' →
  cat' = foldl (λ catalog entry, <[entry.1 := entry.2]> catalog) cat
           (omap entry_of objs).
Proof.
  revert cat. induction objs as [|obj objs IH]; intros cat; cbn.
  - by intros [= <-].
  - intros (cat1 & Hbody & Hrest)%bind_ok.
    apply main_body_ok_inv in Hbody as ->. apply IH in Hrest as ->.
    by destruct (entry_of obj).
Qed.

Lemma main_loop_total (objs : list value) (cat : gmap string value) :
  forallb is_bundle_object objs → ∃ cat', for_each main_body objs cat = Ok cat'.
Proof.
  revert cat. induction objs as [|obj objs IH]; intros cat; cbn [forallb].
  - by eexists.
  - intros [Hobj Hobjs]%andb_True.
    destruct (main_body_total obj cat Hobj) as [cat1 Hbody].
    destruct (IH cat1 Hobjs) as [cat' Hrest].
    exists cat'. cbn. by rewrite Hbody.
Qed.

Lemma main_loop_non_dict (objs : list value) (cat : gmap string value) :
  forallb is_dict objs = false →
  ∃ e, for_each main_body objs cat = Err e ∧ shape_error e.
Proof.
  revert cat. induction objs as [|obj objs IH]; intros cat; [done|].
  cbn [forallb]. intros Hobjs. cbn.
  destruct (main_body obj cat) as [cat1|e] eqn:Hbody; cbn.
  - apply IH. destruct obj; try done.
  - exists e. split; [done|]. by eapply main_body_err_inv.
Qed.

(** Lookups in a fold of inserts. *)
Lemma fold_insert_lookup (entries : list (string * value))
    (cat : gmap string value) (k : string) (rec : value) :
  foldl (λ catalog entry, <[entry.1 := entry.2]> catalog) cat entries !! k
    = Some rec →
  cat !! k = Some rec ∨ (k, rec) ∈ entries.
Proof.
  revert cat. induction entries as [|[k' rec'] entries IH]; intros cat; cbn.
  - by left.
  - intros [Hcat|Hin]%IH; [|right; by constructor].
    destruct (decide (k' = k)) as [->|Hne].
    + rewrite lookup_insert_eq in Hcat. injection Hcat as ->.
      right. by constructor.
    + rewrite lookup_insert_ne in Hcat; auto.
Qed.

Lemma fold_insert_absent (entries : list (string * value))
    (cat : gmap string value) (k : string) :
  Forall (λ entry, entry.1 ≠ k) entries →
  foldl (λ catalog entry, <[entry.1 := entry.2]> catalog) cat entries !! k
  = cat !! k.
Proof.
  intros Hentries. revert cat.
  induction Hentries as [|entry entries Hne _ IH]; intros cat; cbn; [done|].
  by rewrite IH, lookup_insert_ne.
Qed.

Lemma main_objects (data : gmap string value) (objects : value) :
  data !! "objects" = Some objects →
  main (VDict data) = (objs ← iter objects; for_each main_body objs ∅).
Proof. intros Hobjects. unfold main. cbn. by rewrite Hobjects. Qed.

(** *** The claims *)

(** C1: in an attack-pattern object whose [external_references] hold a
    T-prefixed reference [r] after references [pre] none of which is
    T-prefixed, the [technique] of the record is the [external_id] of
    [r] and its [url] is the one of [r] ([None] if [r] has none),
    whatever references [post] follow [r]: with further T-prefixed
    references among them the record is the same. *)
Theorem first_t_reference_selected (o r : gmap string value)
    (pre post phases : list value) (s : string) :
  o !! "external_references" = Some (VList (pre ++ VDict r :: post)) →
  Forall other_reference pre →
  r !! "external_id" = Some (VStr s) → str_startswith s "T" →
  phases_of o = Some phases →
  ∃ d, parse_attack_pattern (VDict o) = Ok (VDict d) ∧
       d !! "technique" = Some (VStr s) ∧
       d !! "url" = Some (default VNone (r !! "url")) ∧
       ∀ post',
         parse_attack_pattern
           (VDict (<["external_references" := VList (pre ++ VDict r :: post')]> o))
         = Ok (VDict d).
Proof.
  intros Hrefs Hpre Hid Hs Hphases.
  eexists. split_and!.
  - by eapply parse_first.
  - by simplify_map_eq.
  - by simplify_map_eq.
  - intros post'.
    rewrite (parse_first _ r pre post' phases s); try done.
    + by simplify_map_eq.
    + by simplify_map_eq.
    + unfold phases_of. by simplify_map_eq.
Qed.

Lemma first_t_reference_selected_witness :
  ∃ d, parse_attack_pattern (VDict Samples.obfuscation) = Ok (VDict d) ∧
       d !! "technique" = Some (VStr "T1001") ∧
       d !! "url" = Some (VStr "https://attack.mitre.org/techniques/T1001").
Proof.
  destruct (first_t_reference_selected Samples.obfuscation
              Samples.t1001_reference [Samples.capec_reference]
              [Samples.t1002_reference] Samples.execution_phases "T1001")
    as (d & Hparse & Htechnique & Hurl & _).
  - reflexivity.
  - repeat constructor.
  - reflexivity.
  - exact I.
  - reflexivity.
  - exists d. split_and!; [exact Hparse | exact Htechnique | exact Hurl].
Defined.

(** C10: every record [parse_attack_pattern] returns has a [url] key;
    when the first T-prefixed reference of the object has no [url]
    field, the record maps [url] to [None]. *)
Theorem record_has_url_key :
  (∀ obj d, parse_attack_pattern obj = Ok (VDict d) → is_Some (d !! "url")) ∧
  (∀ (o r : gmap string value) (pre post phases : list value) (s : string),
     o !! "external_references" = Some (VList (pre ++ VDict r :: post)) →
     Forall other_reference pre →
     r !! "external_id" = Some (VStr s) → str_startswith s "T" →
     r !! "url" = None →
     phases_of o = Some phases →
     ∃ d, parse_attack_pattern (VDict o) = Ok (VDict d) ∧
          d !! "url" = Some VNone).
Proof.
  split.
  - intros obj d [?|(? & ? & ? & url & ? & Hrec & _)]%parse_ok_inv; [done|].
    symmetry in Hrec. apply make_record_url in Hrec. by exists url.
  - intros o r pre post phases s Hrefs Hpre Hid Hs Hurl Hphases.
    eexists. split; [by eapply parse_first|].
    rewrite Hurl. by simplify_map_eq.
Qed.

Lemma record_has_url_key_witness :
  (∃ d, parse_attack_pattern (VDict Samples.obfuscation) = Ok (VDict d) ∧
        is_Some (d !! "url")) ∧
  (∃ d, parse_attack_pattern (VDict Samples.obfuscation_revised) = Ok (VDict d) ∧
        d !! "url" = Some VNone).
Proof.
  destruct record_has_url_key as [Hkey Hnone]. split.
  - eexists. split; [vm_compute; reflexivity|].
    apply (Hkey (VDict Samples.obfuscation)). vm_compute; reflexivity.
  - apply (Hnone Samples.obfuscation_revised Samples.t1001_bare_reference
             [] [] [] "T1001"); [reflexivity | constructor | reflexivity
             | exact I | reflexivity | reflexivity].
Defined.

(** C3: a catalog [main] returns holds only records stored under their
    own [technique], which is non-empty and starts with "T";
    [parse_attack_pattern] returns [None] or such a record, nothing
    else; and an attack-pattern object none of whose external references
    is T-prefixed gives [None], raising nothing, and leaves the catalog
    as it is. *)
Theorem catalog_keys_t_prefixed :
  (∀ mitre_data cat k rec,
     main mitre_data = Ok cat → cat !! k = Some rec →
     str_startswith k "T" ∧ k ≠ "" ∧
     ∃ d, rec = VDict d ∧ d !! "technique" = Some (VStr k)) ∧
  (∀ obj rec,
     parse_attack_pattern obj = Ok rec →
     rec = VNone ∨
     ∃ d s, rec = VDict d ∧ d !! "technique" = Some (VStr s) ∧
            str_startswith s "T" ∧ s ≠ "") ∧
  (∀ (o : gmap string value) refs,
     references_of o = Some refs →
     forallb (λ ref, negb (t_prefixed ref)) refs →
     parse_attack_pattern (VDict o) = Ok VNone ∧
     ∀ cat, main_body (VDict o) cat = Ok cat).
Proof.
  split_and!.
  - intros mitre_data cat k rec Hmain Hlookup. unfold main in Hmain.
    apply bind_ok in Hmain as (objects & _ & Hmain).
    apply bind_ok in Hmain as (objs & _ & Hloop).
    apply main_loop_fold in Hloop as ->.
    apply fold_insert_lookup in Hlookup as [Hempty|Hin]; [done|].
    apply list_elem_of_omap in Hin as (obj & _ & Hentry).
    apply entry_of_inv in Hentry as (_ & _ & Hs & Hrec).
    split_and!; [done| |done]. by apply (startswith_nonempty k "T").
  - intros obj rec [->|(? & s & ? & ? & ? & -> & Hs)]%parse_ok_inv; [by left|].
    right. eexists _, s. split_and!; [done| |done|].
    + by simplify_map_eq.
    + by apply (startswith_nonempty s "T").
  - intros o refs Hrefs Hnone.
    pose proof (parse_none o refs Hrefs Hnone) as Hparse.
    split; [done|]. intros cat. unfold main_body.
    cbn [get mbind result_bind]. rewrite Hparse.
    by destruct (eq_str _ "attack-pattern").
Qed.

Lemma catalog_keys_t_prefixed_witness :
  (∃ cat rec, main (VDict Samples.bundle) = Ok cat ∧
     cat !! "T1001" = Some rec ∧
     str_startswith "T1001" "T" ∧ "T1001" ≠ "" ∧
     ∃ d, rec = VDict d ∧ d !! "technique" = Some (VStr "T1001")) ∧
  (parse_attack_pattern (VDict Samples.untracked) = Ok VNone ∧
   ∀ cat, main_body (VDict Samples.untracked) cat = Ok cat).
Proof.
  destruct catalog_keys_t_prefixed as (Hkeys & _ & Hdropped). split.
  - eexists _, Samples.obfuscation_revised_record.
    assert (main (VDict Samples.bundle)
            = Ok {[ "T1001" := Samples.obfuscation_revised_record ]}) as Hmain
      by (vm_compute; reflexivity).
    assert (({[ "T1001" := Samples.obfuscation_revised_record ]}
               : gmap string value) !! "T1001"
            = Some Samples.obfuscation_revised_record) as Hlookup
      by reflexivity.
    split; [exact Hmain|]. split; [exact Hlookup|].
    exact (Hkeys _ _ _ _ Hmain Hlookup).
  - apply (Hdropped Samples.untracked [Samples.capec_reference]);
      [reflexivity | exact I].
Defined.

(** C2: when two attack-pattern objects of a bundle resolve to the same
    technique identifier [k] and no object after the second resolves to
    [k], the catalog maps [k] to the record of the second; the catalog
    is the fold over the entries of the bundle in order in which a
    later entry overwrites an earlier one under its key, and on a bundle
    whose objects have the shapes of the data model [main] returns
    it. *)
Theorem catalog_last_write_wins (data : gmap string value)
    (pre mid post : list value) (o1 o2 r1 r2 : value) (k : string) :
  let objs := pre ++ o1 :: mid ++ o2 :: post in
  data !! "objects" = Some (VList objs) →
  entry_of o1 = Some (k, r1) →
  entry_of o2 = Some (k, r2) →
  Forall (λ obj, fst <$> entry_of obj ≠ Some k) post →
  (∀ cat, main (VDict data) = Ok cat →
     cat !! k = Some r2 ∧ cat = last_write_wins (omap entry_of objs)) ∧
  (forallb is_bundle_object objs →
     main (VDict data) = Ok (last_write_wins (omap entry_of objs))).
Proof.
  intros objs Hobjects Hentry1 Hentry2 Hpost.
  rewrite (main_objects data _ Hobjects). cbn [iter mbind result_bind].
  assert (∀ cat, for_each main_body objs ∅ = Ok cat →
                 cat = last_write_wins (omap entry_of objs)) as Hfold.
  { intros cat Hloop. by apply main_loop_fold in Hloop. }
  split.
  - intros cat Hloop. split; [|by apply Hfold].
    rewrite (Hfold cat Hloop). unfold last_write_wins, objs.
    replace (pre ++ o1 :: mid ++ o2 :: post)
      with ((pre ++ o1 :: mid) ++ o2 :: post) by (by rewrite <-app_assoc).
    rewrite omap_app, foldl_app. cbn [omap list_omap]. rewrite Hentry2.
    cbn [foldl].
    rewrite fold_insert_absent; [by simplify_map_eq|].
    apply Forall_forall. intros [k' rec'] (obj & Hobj & Hentry)%list_elem_of_omap.
    rewrite Forall_forall in Hpost. specialize (Hpost obj Hobj).
    rewrite Hentry in Hpost. cbn in *. congruence.
  - intros Hshapes.
    destruct (main_loop_total objs ∅ Hshapes) as [cat Hloop].
    by rewrite Hloop, (Hfold cat Hloop).
Qed.

Lemma catalog_last_write_wins_witness :
  ∃ cat, main (VDict Samples.bundle) = Ok cat ∧
         cat !! "T1001" = Some Samples.obfuscation_revised_record.
Proof.
  destruct (catalog_last_write_wins Samples.bundle
              [] [Samples.identity; VDict Samples.untracked] [Samples.identity]
              (VDict Samples.obfuscation) (VDict Samples.obfuscation_revised)
              Samples.obfuscation_record Samples.obfuscation_revised_record
              "T1001") as [Hlast Htotal].
  - reflexivity.
  - vm_compute; reflexivity.
  - vm_compute; reflexivity.
  - repeat constructor. vm_compute. discriminate.
  - eexists. split; [apply Htotal; exact I|].
    eapply Hlast. apply Htotal. exact I.
Defined.

(** C5: for a bundle whose [objects] field is present and is not a
    sequence of objects, [main] raises a [TypeError] or an
    [AttributeError] (it has no error kind of its own for this), unless
    [objects] is the empty string or the empty mapping, for which it
    returns the empty catalog. *)
Theorem malformed_objects_outcome (data : gmap string value) (objects : value) :
  data !! "objects" = Some objects →
  is_object_sequence objects = false →
  if iterates_nothing objects then main (VDict data) = Ok ∅
  else ∃ e, main (VDict data) = Err e ∧ shape_error e.
Proof.
  intros Hobjects Hshape. rewrite (main_objects data _ Hobjects).
  destruct objects as [| | | | |s|objs|d]; cbn [iterates_nothing];
    try (exists TypeError; split; [done | by left]).
  - destruct s as [|c s]; [done|]. exists AttributeError. split; [done | by right].
  - cbn [iter mbind result_bind]. by apply main_loop_non_dict.
  - cbn [iter mbind result_bind]. case_bool_decide as Hsize.
    + apply map_size_empty_iff in Hsize as ->. by rewrite map_to_list_empty.
    + destruct (map_to_list d) as [|[k v] l] eqn:Hlist.
      * apply map_to_list_empty_iff in Hlist as ->. by rewrite map_size_empty in Hsize.
      * exists AttributeError. split; [done | by right].
Qed.

Lemma malformed_objects_outcome_witness :
  (∃ e, main (VDict {[ "objects" := VInt 3 ]}) = Err e ∧ shape_error e) ∧
  main (VDict {[ "objects" := VDict ∅ ]}) = Ok ∅.
Proof.
  split.
  - apply (malformed_objects_outcome {[ "objects" := VInt 3 ]} (VInt 3));
      reflexivity.
  - exact (malformed_objects_outcome {[ "objects" := VDict ∅ ]} (VDict ∅)
             eq_refl eq_refl).
Defined.

(** C5, as stated, fails on a bundle whose [objects] is the empty
    string: it is present and no sequence of objects, and [main] returns
    the empty catalog instead of raising. *)
Lemma empty_string_objects_not_rejected :
  ({[ "objects" := VStr "" ]} : gmap string value) !! "objects"
    = Some (VStr "") ∧
  is_object_sequence (VStr "") = false ∧
  main (VDict {[ "objects" := VStr "" ]}) = Ok ∅ ∧
  ¬ ∃ e, main (VDict {[ "objects" := VStr "" ]}) = Err e.
Proof.
  split_and!; [reflexivity..|]. by intros [e He].
Qed.

End MitreFacts.

(** ** Facts about [validation.py] *)

Module ValidationFacts.
Import Py PyFacts Validation.

(** *** The required fields *)

Lemma get_required_fields_shape (rule_type : value) :
  ∃ advisory extra,
    get_required_fields rule_type = IO advisory (Ok (base_fields ++ extra)) ∧
    (advisory = [] ∨ advisory = [UnknownRuleTypeWarning rule_type]).
Proof.
  unfold get_required_fields.
  destruct (eq_str rule_type "query"); [by eexists [], _; auto|].
  destruct (eq_str rule_type "eql"); [by eexists [], _; auto|].
  destruct (eq_str rule_type "threshold"); [by eexists [], _; auto|].
  exists [UnknownRuleTypeWarning rule_type], []. by auto.
Qed.

Lemma get_required_fields_printed (rule_type : value) :
  printed (get_required_fields rule_type) = [] ∨
  printed (get_required_fields rule_type) = [UnknownRuleTypeWarning rule_type].
Proof.
  destruct (get_required_fields_shape rule_type) as (? & ? & -> & Hadvisory).
  done.
Qed.

Lemma eq_str_false (v : value) (s : string) : v ≠ VStr s → eq_str v s = false.
Proof.
  destruct v; try done. intros Hne. cbn.
  apply bool_decide_eq_false_2. congruence.
Qed.

Lemma get_required_fields_unknown (rule_type : value) :
  rule_type ≠ VStr "query" → rule_type ≠ VStr "eql" →
  rule_type ≠ VStr "threshold" →
  get_required_fields rule_type
  = IO [UnknownRuleTypeWarning rule_type] (Ok base_fields).
Proof.
  intros Hquery Heql Hthreshold. unfold get_required_fields.
  by rewrite !eq_str_false.
Qed.

(** *** The present fields *)

Lemma config_document_lookup (cfg : gmap string value) (t : string) (v : value) :
  is_config_document cfg → cfg !! t = Some v → ∃ table, v = VDict table.
Proof.
  unfold is_config_document. intros Hcfg%forallb_True Hlookup.
  rewrite Forall_forall in Hcfg. apply is_dict_inv, Hcfg.
  apply list_elem_of_fmap. exists (t, v). split; [done|].
  by apply elem_of_map_to_list.
Qed.

Lemma collect_tables (cfg : gmap string value) (tables : list (string * value))
    (present_fields : gset string) :
  (∀ t v, (t, v) ∈ tables → cfg !! t = Some v) →
  forallb is_dict tables.*2 →
  for_each (present_body cfg) tables.*1 present_fields
  = Ok (present_fields ∪ ⋃ (table_fields <$> tables.*2)).
Proof.
  revert present_fields.
  induction tables as [|[t v] tables IH]; intros present_fields Hlookup; cbn.
  - intros _. by rewrite (right_id_L ∅ (∪)).
  - intros [[table ->]%is_dict_inv Htables]%andb_True.
    rewrite (Hlookup t (VDict table)) by constructor. cbn.
    rewrite IH; [|intros; apply Hlookup; by constructor|done].
    by rewrite (assoc_L (∪)).
Qed.

Lemma present_fields_flattened (cfg : gmap string value) :
  is_config_document cfg →
  for_each (present_body cfg) (map_to_list cfg).*1 ∅
  = Ok (flattened_fields cfg).
Proof.
  intros Hcfg. rewrite collect_tables; [|by intros; apply elem_of_map_to_list|done].
  unfold flattened_fields. by rewrite (left_id_L ∅ (∪)).
Qed.

Lemma elem_of_flattened_fields (cfg : gmap string value) (field : string) :
  field ∈ flattened_fields cfg ↔
  ∃ t table, cfg !! t = Some (VDict table) ∧ is_Some (table !! field).
Proof.
  unfold flattened_fields. rewrite elem_of_union_list. split.
  - intros (X & HX & Hfield).
    apply list_elem_of_fmap in HX as (v & -> & Hv).
    apply list_elem_of_fmap in Hv as ([t v'] & -> & Htv).
    apply elem_of_map_to_list in Htv. cbn in *.
    destruct v'; try by apply not_elem_of_empty in Hfield.
    exists t, d. split; [done|]. by apply elem_of_dom.
  - intros (t & table & Hlookup & Hfield).
    exists (dom table). split; [|by apply elem_of_dom].
    apply list_elem_of_fmap. exists (VDict table). split; [done|].
    apply list_elem_of_fmap. exists (t, VDict table). split; [done|].
    by apply elem_of_map_to_list.
Qed.

(** *** Validation *)

Lemma print_report (file_path : string) (missing_fields : list string) :
  (if bool_decide (missing_fields = [])
   then print (ValidationPassed file_path)
   else print (MissingFieldsReport file_path missing_fields))
  = print (report file_path missing_fields).
Proof. by destruct missing_fields. Qed.

Lemma validate_declared (cfg rule : gmap string value) (rule_type : value)
    (file_path : string) :
  is_config_document cfg →
  cfg !! "rule" = Some (VDict rule) → rule !! "type" = Some rule_type →
  ∃ advisory required,
    get_required_fields rule_type = IO advisory (Ok required) ∧
    validate_alert_config cfg file_path
    = IO (advisory ++ [report file_path (missing_from cfg required)]) (Ok tt).
Proof.
  intros Hcfg Hrule Htype.
  destruct (get_required_fields_shape rule_type)
    as (advisory & extra & Hrequired & _).
  exists advisory, (base_fields ++ extra). split; [done|].
  unfold validate_alert_config. cbn. rewrite Hrule. cbn. rewrite Htype. cbn.
  rewrite Hrequired, (present_fields_flattened cfg Hcfg). cbn.
  by rewrite print_report.
Qed.

Lemma validate_undeclared (cfg : gmap string value) (file_path : string) :
  is_config_document cfg → declares_rule_type cfg = false →
  validate_alert_config cfg file_path
  = IO [RuleNotFoundError file_path] (Err (SystemExit 1)).
Proof.
  intros Hcfg. unfold declares_rule_type, validate_alert_config. cbn.
  destruct (cfg !! "rule") as [v|] eqn:Hrule; [|done].
  destruct (config_document_lookup cfg "rule" v Hcfg Hrule) as [rule ->].
  intros Htype. rewrite bool_decide_eq_true_2 by (by eexists). cbn.
  by rewrite Htype.
Qed.

(** Outside the config documents: a top-level value that is no table has
    no [keys] method, and the loop over the tables raises. *)
Example top_level_scalar_raises :
  is_config_document Samples.alert_with_title = false ∧
  validate_alert_config Samples.alert_with_title "alert.toml"
  = IO [] (Err AttributeError).
Proof. split; reflexivity. Qed.

(** *** The claims *)

(** C4: on a config document without a [rule] table, or whose [rule]
    table has no [type] field, [validate_alert_config] prints the error
    and exits with status 1 without printing a report; on a config
    document that has both it returns, its last output being the
    report. *)
Theorem rule_declaration_required (cfg : gmap string value) (file_path : string) :
  is_config_document cfg →
  if declares_rule_type cfg then
    ∃ advisory missing_fields,
      validate_alert_config cfg file_path
      = IO (advisory ++ [report file_path missing_fields]) (Ok tt)
  else
    validate_alert_config cfg file_path
    = IO [RuleNotFoundError file_path] (Err (SystemExit 1)).
Proof.
  intros Hcfg. destruct (declares_rule_type cfg) eqn:Hdeclared.
  - unfold declares_rule_type in Hdeclared.
    destruct (cfg !! "rule") as [[]|] eqn:Hrule; try done.
    apply bool_decide_eq_true in Hdeclared as [rule_type Htype].
    destruct (validate_declared cfg d rule_type file_path Hcfg Hrule Htype)
      as (advisory & required & _ & Hvalidate).
    by eexists _, _.
  - by apply validate_undeclared.
Qed.

Lemma rule_declaration_required_witness :
  (∃ advisory missing_fields,
     validate_alert_config Samples.alert_without_query "alert.toml"
     = IO (advisory ++ [report "alert.toml" missing_fields]) (Ok tt)) ∧
  validate_alert_config Samples.alert_without_type "alert.toml"
  = IO [RuleNotFoundError "alert.toml"] (Err (SystemExit 1)) ∧
  validate_alert_config ∅ "alert.toml"
  = IO [RuleNotFoundError "alert.toml"] (Err (SystemExit 1)).
Proof.
  split_and!.
  - exact (rule_declaration_required Samples.alert_without_query "alert.toml" I).
  - exact (rule_declaration_required Samples.alert_without_type "alert.toml" I).
  - exact (rule_declaration_required ∅ "alert.toml" I).
Defined.

(** C6: [get_required_fields] gives description, name, risk_score,
    severity, type, query, language, in this order, for "eql"; for
    "threshold" a list with "threshold" and "query" and without
    "language"; and for every rule type a list that starts with the
    five base fields. *)
Theorem required_fields_by_type :
  outcome (get_required_fields (VStr "eql"))
  = Ok ["description"; "name"; "risk_score"; "severity"; "type";
        "query"; "language"] ∧
  (∃ required,
     outcome (get_required_fields (VStr "threshold")) = Ok required ∧
     "threshold" ∈ required ∧ "query" ∈ required ∧ "language" ∉ required) ∧
  (∀ rule_type, ∃ extra,
     outcome (get_required_fields rule_type) = Ok (base_fields ++ extra)) ∧
  base_fields = ["description"; "name"; "risk_score"; "severity"; "type"].
Proof.
  split_and!.
  - reflexivity.
  - eexists. split; [reflexivity|]. split_and!.
    + set_solver.
    + set_solver.
    + intros Hin. repeat (apply elem_of_cons in Hin as [?|Hin]; [done|]).
      by apply elem_of_nil in Hin.
  - intros rule_type.
    destruct (get_required_fields_shape rule_type) as (? & extra & -> & _).
    by exists extra.
  - reflexivity.
Qed.

(** C7: for a rule type other than "query", "eql" and "threshold",
    [get_required_fields] prints the warning and returns the base
    fields; [validate_alert_config] on a config document declaring such
    a type prints the warning, then the report of the base fields
    missing from the document, and returns. *)
Theorem unknown_rule_type_not_fatal (cfg rule : gmap string value)
    (rule_type : value) (file_path : string) :
  rule_type ≠ VStr "query" → rule_type ≠ VStr "eql" →
  rule_type ≠ VStr "threshold" →
  get_required_fields rule_type
  = IO [UnknownRuleTypeWarning rule_type]
       (Ok ["description"; "name"; "risk_score"; "severity"; "type"]) ∧
  (is_config_document cfg →
   cfg !! "rule" = Some (VDict rule) → rule !! "type" = Some rule_type →
   validate_alert_config cfg file_path
   = IO [UnknownRuleTypeWarning rule_type;
         report file_path (missing_from cfg base_fields)] (Ok tt)).
Proof.
  intros Hquery Heql Hthreshold.
  pose proof (get_required_fields_unknown rule_type Hquery Heql Hthreshold)
    as Hrequired.
  split; [done|]. intros Hcfg Hrule Htype.
  destruct (validate_declared cfg rule rule_type file_path Hcfg Hrule Htype)
    as (advisory & required & Hrequired' & ->).
  rewrite Hrequired in Hrequired'. by injection Hrequired' as <- <-.
Qed.

Lemma unknown_rule_type_not_fatal_witness :
  get_required_fields (VStr "machine_learning")
  = IO [UnknownRuleTypeWarning (VStr "machine_learning")] (Ok base_fields) ∧
  validate_alert_config Samples.alert_of_unknown_type "alert.toml"
  = IO [UnknownRuleTypeWarning (VStr "machine_learning");
        MissingFieldsReport "alert.toml" ["risk_score"]] (Ok tt).
Proof.
  destruct (unknown_rule_type_not_fatal Samples.alert_of_unknown_type
              {[ "type" := VStr "machine_learning"; "description" := VStr "d" ]}
              (VStr "machine_learning") "alert.toml")
    as [Hrequired Hvalidate]; [discriminate..|].
  split; [exact Hrequired|].
  exact (Hvalidate I eq_refl eq_refl).
Defined.

(** C8: on a config document with a [rule] table declaring a [type],
    [validate_alert_config] reports the fields required for that type
    that are in none of the top-level tables, in the order of the
    required-field list; a field counts as present when any table has
    it.  For the rule of type "query" with name, description, risk_score
    and severity the report lists exactly "query". *)
Theorem missing_fields_reported :
  (∀ (cfg rule : gmap string value) (rule_type : value) (file_path : string),
     is_config_document cfg →
     cfg !! "rule" = Some (VDict rule) → rule !! "type" = Some rule_type →
     ∃ advisory required,
       get_required_fields rule_type = IO advisory (Ok required) ∧
       validate_alert_config cfg file_path
       = IO (advisory ++ [report file_path (missing_from cfg required)])
            (Ok tt) ∧
       sublist (missing_from cfg required) required ∧
       ∀ field,
         field ∈ missing_from cfg required ↔
         field ∈ required ∧
         ¬ ∃ t table, cfg !! t = Some (VDict table) ∧ is_Some (table !! field)) ∧
  validate_alert_config Samples.alert_without_query "alert.toml"
  = IO [MissingFieldsReport "alert.toml" ["query"]] (Ok tt).
Proof.
  split; [|by vm_compute].
  intros cfg rule rule_type file_path Hcfg Hrule Htype.
  destruct (validate_declared cfg rule rule_type file_path Hcfg Hrule Htype)
    as (advisory & required & Hrequired & Hvalidate).
  exists advisory, required. split_and!; [done..| |].
  - apply sublist_filter.
  - intros field. unfold missing_from.
    rewrite list_elem_of_filter, elem_of_flattened_fields. tauto.
Qed.

Lemma missing_fields_reported_witness :
  validate_alert_config Samples.alert_of_unknown_type "alert.toml"
  = IO [UnknownRuleTypeWarning (VStr "machine_learning");
        MissingFieldsReport "alert.toml" ["risk_score"]] (Ok tt).
Proof.
  destruct (proj1 missing_fields_reported Samples.alert_of_unknown_type
              {[ "type" := VStr "machine_learning"; "description" := VStr "d" ]}
              (VStr "machine_learning") "alert.toml" I eq_refl eq_refl)
    as (advisory & required & Hrequired & Hvalidate & _).
  injection Hrequired as <- <-. exact Hvalidate.
Defined.

(** C9: on a config document with a [rule] table declaring a [type],
    "type" is among the present fields and no report
    [validate_alert_config] prints lists "type" as missing. *)
Theorem type_never_missing (cfg : gmap string value)
    (file_path reported_path : string) (missing_fields : list string) :
  is_config_document cfg → declares_rule_type cfg →
  "type" ∈ flattened_fields cfg ∧
  (MissingFieldsReport reported_path missing_fields
     ∈ printed (validate_alert_config cfg file_path) →
   "type" ∉ missing_fields).
Proof.
  intros Hcfg Hdeclared. unfold declares_rule_type in Hdeclared.
  destruct (cfg !! "rule") as [[]|] eqn:Hrule; try done.
  apply bool_decide_unpack in Hdeclared as Htype.
  assert ("type" ∈ flattened_fields cfg) as Hpresent.
  { apply elem_of_flattened_fields. by eexists _, _. }
  split; [done|]. destruct Htype as [rule_type Htype].
  destruct (validate_declared cfg d rule_type file_path Hcfg Hrule Htype)
    as (advisory & required & Hrequired & ->).
  pose proof (get_required_fields_printed rule_type) as Hadvisory.
  rewrite Hrequired in Hadvisory. cbn [printed] in *.
  intros [Hin|Hin%list_elem_of_singleton]%elem_of_app.
  - destruct Hadvisory as [->| ->]; [by apply elem_of_nil in Hin|].
    by apply list_elem_of_singleton in Hin.
  - intros Htype_missing. unfold report in Hin.
    destruct (missing_from cfg required) eqn:Hmissing; [done|].
    injection Hin as _ ->. rewrite <-Hmissing in Htype_missing.
    unfold missing_from in Htype_missing.
    by apply list_elem_of_filter in Htype_missing as [? _].
Qed.

Lemma type_never_missing_witness :
  "type" ∈ flattened_fields Samples.alert_without_query ∧
  (MissingFieldsReport "alert.toml" ["query"]
     ∈ printed (validate_alert_config Samples.alert_without_query "alert.toml") →
   "type" ∉ ["query"]).
Proof.
  exact (type_never_missing Samples.alert_without_query "alert.toml"
           "alert.toml" ["query"] I I).
Defined.

End ValidationFacts.

(** ** Further facts about [mitre.py] *)

Module MitreMore.
Import Py PyFacts Mitre MitreFacts.

(** *** Exceptions *)

Lemma main_loop_err_inv (objs : list value) (cat : gmap string value) (e : exn) :
  for_each main_body objs cat = Err e → shape_error e.
Proof.
  revert cat. induction objs as [|obj objs IH]; intros cat; cbn; [done|].
  destruct (main_body obj cat) as [cat'|e'] eqn:Hbody; cbn.
  - apply IH.
  - intros [= <-]. by eapply main_body_err_inv.
Qed.

(** X1: Whatever JSON document they are given, [parse_attack_pattern] and
    [main] raise nothing but a [TypeError] or an [AttributeError]: no
    [KeyError] escapes, every subscript being guarded by [in] or
    replaced by [get]. *)
Theorem only_shape_errors_escape :
  (∀ obj e, parse_attack_pattern obj = Err e →
     e = TypeError ∨ e = AttributeError) ∧
  (∀ mitre_data e, main mitre_data = Err e →
     e = TypeError ∨ e = AttributeError) ∧
  (∀ mitre_data e, reported_count mitre_data = Err e →
     e = TypeError ∨ e = AttributeError).
Proof.
  assert (∀ mitre_data e, main mitre_data = Err e → shape_error e) as Hmain.
  { intros mitre_data e. unfold main.
    destruct (get mitre_data "objects" (VList [])) as [objects|] eqn:Hget; cbn.
    2: { intros [= <-]. by eapply get_err_inv. }
    destruct (iter objects) as [objs|] eqn:Hiter; cbn.
    2: { intros [= <-]. by eapply iter_err_inv. }
    apply main_loop_err_inv. }
  split_and!.
  - apply parse_err_inv.
  - apply Hmain.
  - intros mitre_data e. unfold reported_count.
    destruct (main mitre_data) eqn:Hm; cbn; [done|].
    intros [= <-]. by eapply Hmain.
Qed.

Lemma only_shape_errors_escape_witness :
  main (VList []) = Err AttributeError ∧
  (AttributeError = TypeError ∨ AttributeError = AttributeError).
Proof.
  split; [reflexivity|].
  exact (proj1 (proj2 only_shape_errors_escape) (VList []) AttributeError eq_refl).
Defined.

(** *** Edge cases of the bundle *)

(** X2: A bundle without an [objects] field, or with an empty one, gives the
    empty catalog and the count 0; a top-level document that is no
    mapping (a JSON array, string, number or [null]) has no [get] method
    and [main] raises [AttributeError]. *)
Theorem bundle_edge_cases :
  (∀ data : gmap string value,
     data !! "objects" = None ∨ data !! "objects" = Some (VList []) →
     main (VDict data) = Ok ∅ ∧ reported_count (VDict data) = Ok 0) ∧
  (∀ mitre_data,
     is_dict mitre_data = false →
     main mitre_data = Err AttributeError ∧
     reported_count mitre_data = Err AttributeError).
Proof.
  split.
  - intros data. unfold reported_count, main. cbn [get mbind result_bind].
    by intros [-> | ->].
  - by intros [].
Qed.

Lemma bundle_edge_cases_witness :
  (main (VDict {[ "type" := VStr "bundle" ]}) = Ok ∅ ∧
   reported_count (VDict {[ "type" := VStr "bundle" ]}) = Ok 0) ∧
  (main (VList []) = Err AttributeError ∧
   reported_count (VList []) = Err AttributeError).
Proof.
  split.
  - apply (proj1 bundle_edge_cases {[ "type" := VStr "bundle" ]}).
    left. reflexivity.
  - apply (proj2 bundle_edge_cases (VList [])). reflexivity.
Defined.

(** *** Objects that are no attack-patterns *)

Lemma main_body_other (o : gmap string value) (cat : gmap string value) :
  is_attack_pattern (VDict o) = false → main_body (VDict o) cat = Ok cat.
Proof.
  unfold is_attack_pattern, main_body. cbn [get mbind result_bind].
  by intros ->.
Qed.

(** X3: In a bundle whose entries are all objects, those whose [type] is
    absent or not "attack-pattern" are ignored, whatever else they hold:
    [main] does the same on the bundle with only the attack-patterns
    left. *)
Theorem other_objects_ignored (data : gmap string value) (objs : list value) :
  data !! "objects" = Some (VList objs) →
  forallb is_dict objs →
  main (VDict data)
  = main (VDict (<["objects" := VList (filter (λ obj, is_attack_pattern obj) objs)]>
                   data)).
Proof.
  intros Hobjects Hdicts.
  rewrite (main_objects data _ Hobjects).
  rewrite (main_objects (<["objects" := _]> data) _ (lookup_insert_eq _ _ _)).
  cbn [iter mbind result_bind]. clear Hobjects. revert Hdicts.
  generalize (∅ : gmap string value).
  induction objs as [|obj objs IH]; intros cat Hdicts; [done|].
  cbn [forallb] in Hdicts. apply andb_True in Hdicts as [Hobj Hobjs].
  apply is_dict_inv in Hobj as [o ->].
  rewrite filter_cons. destruct (is_attack_pattern (VDict o)) eqn:Hap.
  - rewrite decide_True by done. cbn [for_each].
    destruct (main_body (VDict o) cat); cbn [mbind result_bind]; [|done].
    by apply IH.
  - rewrite decide_False by (intros []). cbn [for_each].
    rewrite (main_body_other o cat Hap). cbn [mbind result_bind]. by apply IH.
Qed.

Lemma other_objects_ignored_witness :
  main (VDict Samples.bundle)
  = main (VDict (<["objects" := VList [VDict Samples.obfuscation;
                                       VDict Samples.untracked;
                                       VDict Samples.obfuscation_revised]]>
                   Samples.bundle)).
Proof.
  exact (other_objects_ignored Samples.bundle
           [VDict Samples.obfuscation; Samples.identity; VDict Samples.untracked;
            VDict Samples.obfuscation_revised; Samples.identity] eq_refl I).
Defined.

(** *** The loop does not depend on the catalog built so far *)

Lemma main_body_any_state (obj : value) (c c' cat : gmap string value) :
  main_body obj c = Ok c' →
  main_body obj cat
  = Ok (match entry_of obj with
        | Some entry => <[entry.1 := entry.2]> cat
        | None => cat
        end).
Proof.
  unfold main_body, entry_of.
  destruct (get obj "type" VNone) as [type|]; cbn; [|done].
  destruct (eq_str type "attack-pattern"); [|done].
  destruct (parse_attack_pattern obj) as [rec|] eqn:Hparse; cbn; [|done].
  apply parse_ok_inv in Hparse as [->|(? & s & ? & ? & ? & -> & Hs)]; [done|].
  rewrite make_record_truthy. unfold make_record. cbn.
  by simplify_map_eq.
Qed.

Lemma main_body_err_any_state (obj : value) (c cat : gmap string value) (e : exn) :
  main_body obj c = Err e → main_body obj cat = Err e.
Proof.
  unfold main_body.
  destruct (get obj "type" VNone) as [type|]; cbn; [|done].
  destruct (eq_str type "attack-pattern"); [|done].
  destruct (parse_attack_pattern obj) as [rec|] eqn:Hparse; cbn; [|done].
  apply parse_ok_inv in Hparse as [->|(? & s & ? & ? & ? & -> & Hs)]; [done|].
  rewrite make_record_truthy. unfold make_record. cbn.
  by simplify_map_eq.
Qed.

Lemma main_loop_any_state (objs : list value) (c c' cat : gmap string value) :
  for_each main_body objs c = Ok c' →
  for_each main_body objs cat
  = Ok (foldl (λ catalog entry, <[entry.1 := entry.2]> catalog) cat
          (omap entry_of objs)).
Proof.
  revert c cat. induction objs as [|obj objs IH]; intros c cat; cbn; [done|].
  intros (c1 & Hbody & Hrest)%bind_ok.
  rewrite (main_body_any_state obj c c1 cat Hbody). cbn [mbind result_bind].
  rewrite (IH _ _ Hrest). by destruct (entry_of obj).
Qed.

Lemma main_loop_app_inv (xs ys : list value) (c c' : gmap string value) :
  for_each main_body (xs ++ ys) c = Ok c' →
  ∃ c1, for_each main_body xs c = Ok c1 ∧ for_each main_body ys c1 = Ok c'.
Proof.
  revert c. induction xs as [|x xs IH]; intros c; cbn; [by eexists|].
  destruct (main_body x c) as [c1|]; cbn; [apply IH | done].
Qed.

Lemma fold_insert_union (entries : list (string * value))
    (cat : gmap string value) :
  foldl (λ catalog entry, <[entry.1 := entry.2]> catalog) cat entries
  = foldl (λ catalog entry, <[entry.1 := entry.2]> catalog) ∅ entries ∪ cat.
Proof.
  revert cat. induction entries as [|[k rec] entries IH]; intros cat; cbn.
  - by rewrite (left_id_L ∅ (∪)).
  - rewrite (IH (<[k := rec]> cat)), (IH (<[k := rec]> ∅)).
    rewrite (insert_union_singleton_l cat), (insert_union_singleton_l ∅).
    by rewrite (right_id_L ∅ (∪)), (assoc_L (∪)).
Qed.

(** *** Catalogs of concatenated bundles *)

(** X4: The catalog of a bundle whose objects are those of a first bundle
    followed by those of a second is the union of the two catalogs in
    which the second has priority; processing the objects of a bundle
    twice gives the catalog of the bundle. *)
Theorem catalogs_merge (data1 data2 data : gmap string value)
    (xs ys : list value) (cat1 cat2 : gmap string value) :
  data1 !! "objects" = Some (VList xs) →
  data2 !! "objects" = Some (VList ys) →
  data !! "objects" = Some (VList (xs ++ ys)) →
  main (VDict data1) = Ok cat1 →
  main (VDict data2) = Ok cat2 →
  main (VDict data) = Ok (cat2 ∪ cat1) ∧
  (xs = ys → main (VDict data) = Ok cat1).
Proof.
  intros H1 H2 H.
  rewrite (main_objects data1 _ H1), (main_objects data2 _ H2),
    (main_objects data _ H).
  cbn [iter mbind result_bind]. intros Hxs Hys.
  assert (for_each main_body (xs ++ ys) ∅ = Ok (cat2 ∪ cat1)) as Hmerge.
  { pose proof (main_loop_fold xs ∅ cat1 Hxs) as Hcat1.
    pose proof (main_loop_fold ys ∅ cat2 Hys) as Hcat2.
    assert (for_each main_body (xs ++ ys) ∅
            = (c ← for_each main_body xs ∅; for_each main_body ys c)) as ->.
    { generalize (∅ : gmap string value). clear.
      induction xs as [|x xs IH]; intros c; cbn; [done|].
      destruct (main_body x c); cbn; [apply IH | done]. }
    rewrite Hxs. cbn [mbind result_bind].
    rewrite (main_loop_any_state ys ∅ cat2 cat1 Hys).
    by rewrite fold_insert_union, <-Hcat2. }
  split; [done|]. intros ->. rewrite Hmerge.
  rewrite Hxs in Hys. injection Hys as ->. by rewrite (idemp_L (∪)).
Qed.

Lemma catalogs_merge_witness :
  main (VDict {[ "objects" := VList [VDict Samples.obfuscation;
                                     VDict Samples.obfuscation_revised] ]})
  = Ok ({[ "T1001" := Samples.obfuscation_revised_record ]}
        ∪ {[ "T1001" := Samples.obfuscation_record ]}).
Proof.
  apply (catalogs_merge
           {[ "objects" := VList [VDict Samples.obfuscation] ]}
           {[ "objects" := VList [VDict Samples.obfuscation_revised] ]}
           {[ "objects" := VList [VDict Samples.obfuscation;
                                  VDict Samples.obfuscation_revised] ]}
           [VDict Samples.obfuscation] [VDict Samples.obfuscation_revised]);
    vm_compute; reflexivity.
Defined.

(** *** A malformed object anywhere *)

(** X5: When the loop body raises on one object of the bundle, [main]
    raises and no catalog is returned, wherever the object stands and
    whatever the other objects are. *)
Theorem malformed_object_aborts (data : gmap string value)
    (objs : list value) (bad : value) (e : exn) :
  data !! "objects" = Some (VList objs) →
  bad ∈ objs →
  main_body bad ∅ = Err e →
  ∃ e', main (VDict data) = Err e' ∧ (e' = TypeError ∨ e' = AttributeError).
Proof.
  intros Hobjects Hbad Hraise.
  destruct (main (VDict data)) as [cat|e'] eqn:Hmain.
  - exfalso. rewrite (main_objects data _ Hobjects) in Hmain.
    cbn [iter mbind result_bind] in Hmain.
    apply list_elem_of_split in Hbad as (pre & post & ->).
    apply main_loop_app_inv in Hmain as (c1 & _ & Hmain). cbn in Hmain.
    by rewrite (main_body_err_any_state bad ∅ c1 e Hraise) in Hmain.
  - exists e'. split; [done|].
    rewrite (main_objects data _ Hobjects) in Hmain.
    cbn [iter mbind result_bind] in Hmain. by eapply main_loop_err_inv.
Qed.

Lemma malformed_object_aborts_witness :
  ∃ e', main (VDict {[ "objects" := VList [VDict Samples.obfuscation;
                                           Samples.unreferenced;
                                           Samples.identity] ]}) = Err e'
        ∧ (e' = TypeError ∨ e' = AttributeError).
Proof.
  apply (malformed_object_aborts _
           [VDict Samples.obfuscation; Samples.unreferenced; Samples.identity]
           Samples.unreferenced TypeError).
  - reflexivity.
  - apply list_elem_of_further, list_elem_of_here.
  - reflexivity.
Defined.

(** *** The reported count *)

Lemma fold_insert_dom (entries : list (string * value)) (cat : gmap string value) :
  dom (foldl (λ catalog entry, <[entry.1 := entry.2]> catalog) cat entries)
  = list_to_set entries.*1 ∪ dom cat.
Proof.
  revert cat. induction entries as [|[k rec] entries IH]; intros cat; cbn.
  - by rewrite (left_id_L ∅ (∪)).
  - rewrite IH, dom_insert_L. clear IH.
    rewrite (assoc_L (∪)), (comm_L (∪) _ {[k]}). done.
Qed.

Lemma length_remove_dups (l : list string) : length (remove_dups l) ≤ length l.
Proof.
  induction l as [|x l IH]; cbn; [done|]. case_decide; cbn; lia.
Qed.

Lemma entry_of_attack_pattern (obj : value) :
  is_Some (entry_of obj) → is_attack_pattern obj.
Proof.
  unfold entry_of, is_attack_pattern. destruct obj; cbn; try by intros [? ?].
  destruct (eq_str _ "attack-pattern"); [done | by intros [? ?]].
Qed.

Lemma length_entries (objs : list value) :
  length (omap entry_of objs)
  ≤ length (filter (λ obj, is_attack_pattern obj) objs).
Proof.
  induction objs as [|obj objs IH]; [done|].
  cbn [omap list_omap]. rewrite filter_cons.
  destruct (entry_of obj) eqn:Hentry.
  - rewrite decide_True by (apply entry_of_attack_pattern; by eexists).
    cbn. fold (omap entry_of objs). lia.
  - fold (omap entry_of objs). case_decide; cbn; lia.
Qed.

(** X6: The count [main] reports is the number of distinct technique
    identifiers the attack-patterns of the bundle resolve to: objects
    that share an identifier count once, and the count never exceeds
    the number of objects of type "attack-pattern". *)
Theorem reported_count_distinct (data : gmap string value)
    (objs : list value) (n : nat) :
  data !! "objects" = Some (VList objs) →
  reported_count (VDict data) = Ok n →
  n = length (remove_dups (omap entry_of objs).*1) ∧
  n ≤ length (filter (λ obj, is_attack_pattern obj) objs).
Proof.
  intros Hobjects. unfold reported_count.
  rewrite (main_objects data _ Hobjects). cbn [iter mbind result_bind].
  destruct (for_each main_body objs ∅) as [cat|] eqn:Hloop; [|done].
  cbn. intros [= <-]. apply main_loop_fold in Hloop as ->.
  assert (size (foldl (λ catalog entry, <[entry.1 := entry.2]> catalog)
                  (∅ : gmap string value) (omap entry_of objs))
          = length (remove_dups (omap entry_of objs).*1)) as ->.
  { rewrite <-size_dom, fold_insert_dom, dom_empty_L, (right_id_L ∅ (∪)).
    rewrite <-(size_list_to_set (C:=gset string) (remove_dups _))
      by apply NoDup_remove_dups.
    f_equal. apply set_eq. intros k.
    by rewrite !elem_of_list_to_set, elem_of_remove_dups. }
  split; [done|].
  etrans; [apply length_remove_dups|]. rewrite length_fmap.
  apply length_entries.
Qed.

Lemma reported_count_distinct_witness :
  reported_count (VDict Samples.bundle) = Ok 1 ∧
  1 = length (remove_dups
                (omap entry_of [VDict Samples.obfuscation; Samples.identity;
                                VDict Samples.untracked;
                                VDict Samples.obfuscation_revised;
                                Samples.identity]).*1) ∧
  1 ≤ length (filter (λ obj, is_attack_pattern obj)
                [VDict Samples.obfuscation; Samples.identity;
                 VDict Samples.untracked; VDict Samples.obfuscation_revised;
                 Samples.identity]).
Proof.
  split; [vm_compute; reflexivity|].
  apply (reported_count_distinct Samples.bundle); vm_compute; reflexivity.
Defined.

(** *** The shape of a record *)

(** X7: A record [parse_attack_pattern] derives from an object has exactly
    the keys tactics, technique, name, url and deprecated; [name] and
    [deprecated] are the object's [name] and [x_mitre_deprecated] as
    they stand, of whatever type, or "N/A" and [False] when the object
    lacks them; [tactics] is a list. *)
Theorem record_shape (o d : gmap string value) :
  parse_attack_pattern (VDict o) = Ok (VDict d) →
  dom d = record_keys ∧
  d !! "name" = Some (default (VStr "N/A") (o !! "name")) ∧
  d !! "deprecated" = Some (default (VBool false) (o !! "x_mitre_deprecated")) ∧
  ∃ tactics, d !! "tactics" = Some (VList tactics).
Proof.
  unfold parse_attack_pattern. intros H.
  apply bind_ok in H as (has_refs & _ & H).
  apply bind_ok in H as ([technique_id technique_url] & _ & H).
  destruct (negb (truthy technique_id)); [done|].
  cbn [get mbind result_bind] in H.
  apply bind_ok in H as (phases & _ & H).
  apply bind_ok in H as (tactics & _ & H).
  injection H as <-. split_and!.
  - rewrite !dom_insert_L, dom_empty_L. unfold record_keys. set_solver.
  - by simplify_map_eq.
  - by simplify_map_eq.
  - exists tactics. by simplify_map_eq.
Qed.

Lemma record_shape_witness :
  ∃ d, parse_attack_pattern (VDict Samples.obfuscation_revised) = Ok (VDict d) ∧
       dom d = record_keys ∧
       d !! "name" = Some (VStr "Data Obfuscation (revised)") ∧
       d !! "deprecated" = Some (VBool true).
Proof.
  eexists. split; [vm_compute; reflexivity|].
  edestruct (record_shape Samples.obfuscation_revised) as (Hdom & Hname & Hdep & _);
    [vm_compute; reflexivity|].
  split_and!; [exact Hdom | exact Hname | exact Hdep].
Defined.

(** *** The tactics *)

(** X8: The [tactics] of the record of an object whose [kill_chain_phases]
    are objects are the [phase_name]s of the phases that have one, in
    the order of the phases; phases without a [phase_name] leave no
    trace, and without [kill_chain_phases] the list is empty. *)
Theorem tactics_in_phase_order (o d : gmap string value) (phases : list value) :
  phases_of o = Some phases →
  parse_attack_pattern (VDict o) = Ok (VDict d) →
  d !! "tactics" = Some (VList (tactics_of phases)) ∧
  (o !! "kill_chain_phases" = None → d !! "tactics" = Some (VList [])) ∧
  ∀ name, name ∈ tactics_of phases ↔
          ∃ p, VDict p ∈ phases ∧ p !! "phase_name" = Some name.
Proof.
  intros Hphases Hparse.
  assert (d !! "tactics" = Some (VList (tactics_of phases))) as Htactics.
  { apply phases_of_iter in Hphases as [Hiter Hdicts].
    unfold parse_attack_pattern in Hparse.
    apply bind_ok in Hparse as (has_refs & _ & H).
    apply bind_ok in H as ([technique_id technique_url] & _ & H).
    destruct (negb (truthy technique_id)); [done|].
    cbn [get mbind result_bind] in H.
    rewrite Hiter in H. cbn [mbind result_bind] in H.
    rewrite (collect_tactics_dicts phases Hdicts) in H.
    cbn [mbind result_bind] in H. injection H as <-. by simplify_map_eq. }
  split_and!; [done| |].
  - intros Habsent. unfold phases_of in Hphases. rewrite Habsent in Hphases.
    by injection Hphases as <-.
  - intros name. unfold tactics_of. rewrite list_elem_of_omap. split.
    + intros (phase & Hin & Hname). destruct phase; try done. by eexists.
    + intros (p & Hin & Hname). by exists (VDict p).
Qed.

Lemma tactics_in_phase_order_witness :
  ∃ d, parse_attack_pattern (VDict Samples.obfuscation) = Ok (VDict d) ∧
       d !! "tactics" = Some (VList [VStr "execution"]).
Proof.
  eexists. split; [vm_compute; reflexivity|].
  apply (tactics_in_phase_order Samples.obfuscation _ Samples.execution_phases);
    vm_compute; reflexivity.
Defined.

(** *** An identifier that is no string *)

(** X9: A reference whose [external_id] is present and not a string makes
    [parse_attack_pattern] raise [AttributeError] when no reference
    before it is T-prefixed, even if a T-prefixed reference follows. *)
Theorem non_string_external_id_raises (o r : gmap string value)
    (pre post : list value) (v : value) :
  o !! "external_references" = Some (VList (pre ++ VDict r :: post)) →
  Forall other_reference pre →
  r !! "external_id" = Some v → (∀ s, v ≠ VStr s) →
  parse_attack_pattern (VDict o) = Err AttributeError.
Proof.
  intros Hrefs Hpre Hid Hv. unfold parse_attack_pattern.
  cbn [contains getitem mbind result_bind]. rewrite Hrefs.
  rewrite bool_decide_eq_true_2 by (by eexists).
  cbn [iter mbind result_bind].
  assert (scan_references (pre ++ VDict r :: post) = Err AttributeError) as ->;
    [|done].
  clear Hrefs. induction Hpre as [|ref pre Href _ IH].
  - cbn. rewrite Hid. rewrite bool_decide_eq_true_2 by (by eexists). cbn.
    destruct v; try done. by destruct (Hv s).
  - by rewrite <-app_comm_cons, scan_other.
Qed.

Lemma non_string_external_id_raises_witness :
  parse_attack_pattern
    (VDict {[ "external_references" :=
                VList [Samples.capec_reference;
                       VDict Samples.numbered_reference;
                       VDict Samples.t1001_reference] ]})
  = Err AttributeError.
Proof.
  apply (non_string_external_id_raises _ Samples.numbered_reference
           [Samples.capec_reference] [VDict Samples.t1001_reference]
           (VInt 1001)).
  - reflexivity.
  - repeat constructor.
  - reflexivity.
  - intros s. discriminate.
Defined.

(** *** Keys that are not read *)

(** X10: [parse_attack_pattern] reads four keys of the object and no other:
    setting or removing any other key, [type] included, changes
    neither the record nor the exception. *)
Theorem unread_keys_irrelevant (o : gmap string value) (k : string) (v : value) :
  k ∉ parsed_keys →
  parse_attack_pattern (VDict (<[k := v]> o)) = parse_attack_pattern (VDict o) ∧
  parse_attack_pattern (VDict (delete k o)) = parse_attack_pattern (VDict o).
Proof.
  unfold parsed_keys. intros Hk.
  repeat (apply not_elem_of_cons in Hk as [? Hk]).
  unfold parse_attack_pattern, contains, getitem, get.
  by rewrite !lookup_insert_ne, !lookup_delete_ne by done.
Qed.

Lemma unread_keys_irrelevant_witness :
  parse_attack_pattern
    (VDict (<["type" := VStr "course-of-action"]> Samples.obfuscation))
  = parse_attack_pattern (VDict Samples.obfuscation).
Proof.
  assert ("type" ∉ parsed_keys) as Hk.
  { unfold parsed_keys. rewrite !not_elem_of_cons.
    split_and!; try discriminate. apply not_elem_of_nil. }
  exact (proj1 (unread_keys_irrelevant Samples.obfuscation "type"
                  (VStr "course-of-action") Hk)).
Defined.

End MitreMore.

(** ** Further facts about [validation.py] *)

Module ValidationMore.
Import Py PyFacts Validation ValidationFacts.

Lemma elem_of_flattened_has_field (cfg : gmap string value) (field : string) :
  field ∈ flattened_fields cfg ↔ has_field cfg field.
Proof. apply elem_of_flattened_fields. Qed.

Lemma missing_from_nil (cfg : gmap string value) (required : list string) :
  missing_from cfg required = [] ↔
  ∀ field, field ∈ required → field ∈ flattened_fields cfg.
Proof.
  unfold missing_from. split.
  - intros Hnil field Hin.
    destruct (decide (field ∈ flattened_fields cfg)) as [|Habsent]; [done|].
    exfalso. by apply (filter_nil_not_elem_of _ _ field Hnil Habsent).
  - intros Hall.
    destruct (filter _ required) as [|field l] eqn:Hfilter; [done|].
    assert (field ∈ filter (λ f, f ∉ flattened_fields cfg) required) as Hin
      by (rewrite Hfilter; constructor).
    apply list_elem_of_filter in Hin as [Habsent Hin].
    destruct Habsent. by apply Hall.
Qed.

Lemma report_passed (file_path reported : string) (missing : list string) :
  ValidationPassed reported = report file_path missing ↔
  reported = file_path ∧ missing = [].
Proof.
  destruct missing; cbn; split; try done.
  - by intros [= ->].
  - by intros [-> _].
  - by intros [_ ?].
Qed.

Lemma advisory_no_verdict (rule_type : value) (m : message) :
  m ∈ printed (get_required_fields rule_type) →
  m = UnknownRuleTypeWarning rule_type.
Proof.
  destruct (get_required_fields_printed rule_type) as [-> | ->].
  - by intros ?%elem_of_nil.
  - by intros ?%list_elem_of_singleton.
Qed.

(** *** The verdict *)

(** X11: On a config document declaring a rule type the script prints
    "Validation Passed" exactly when every field required for the type
    is a key of some top-level table; whether or not fields are
    missing it returns normally: missing fields raise nothing and do
    not end the process. *)
Theorem passes_iff_all_present (cfg rule : gmap string value)
    (rule_type : value) (required : list string) (file_path : string) :
  is_config_document cfg →
  cfg !! "rule" = Some (VDict rule) → rule !! "type" = Some rule_type →
  outcome (get_required_fields rule_type) = Ok required →
  (ValidationPassed file_path ∈ printed (validate_alert_config cfg file_path) ↔
   ∀ field, field ∈ required → has_field cfg field) ∧
  outcome (validate_alert_config cfg file_path) = Ok tt.
Proof.
  intros Hcfg Hrule Htype Hrequired.
  destruct (validate_declared cfg rule rule_type file_path Hcfg Hrule Htype)
    as (advisory & required' & Hrequired' & ->).
  rewrite Hrequired' in Hrequired. cbn in Hrequired. injection Hrequired as ->.
  split; [|done]. cbn [printed].
  rewrite elem_of_app, list_elem_of_singleton, report_passed, missing_from_nil.
  setoid_rewrite elem_of_flattened_has_field. split; [|by auto].
  intros [Hin|[_ Hall]]; [|done].
  pose proof (advisory_no_verdict rule_type (ValidationPassed file_path)) as Hadv.
  rewrite Hrequired' in Hadv. by specialize (Hadv Hin).
Qed.

Lemma passes_iff_all_present_witness :
  (ValidationPassed "alert.toml"
     ∈ printed (validate_alert_config Samples.alert_with_query "alert.toml") ↔
   ∀ field,
     field ∈ ["description"; "name"; "risk_score"; "severity"; "type"; "query"] →
     has_field Samples.alert_with_query field) ∧
  outcome (validate_alert_config Samples.alert_with_query "alert.toml") = Ok tt.
Proof.
  exact (passes_iff_all_present Samples.alert_with_query
           {[ "type" := VStr "query"; "name" := VStr "X";
              "description" := VStr "d"; "risk_score" := VInt 1;
              "severity" := VStr "low" ]}
           (VStr "query") _ "alert.toml" I eq_refl eq_refl eq_refl).
Defined.

(** *** What the verdict depends on *)

Lemma filter_sublist_weaken (P Q : string → Prop)
    `{∀ x, Decision (P x)} `{∀ x, Decision (Q x)} (l : list string) :
  (∀ x, P x → Q x) → sublist (filter P l) (filter Q l).
Proof.
  intros HPQ. induction l as [|x l IH]; [done|].
  rewrite !filter_cons. destruct (decide (P x)) as [HP|HP].
  - rewrite decide_True by auto. by constructor.
  - case_decide; [by constructor | done].
Qed.

(** X12: The script reads the values of no field but [rule.type]: two config
    documents that declare the same rule type and have the same field
    names, in whatever tables and with whatever values, get the same
    output.  A document that has all the field names of another one of
    the same rule type has a sublist of its missing fields reported,
    and passes if the other passes. *)
Theorem only_field_names_matter (cfg cfg' rule rule' : gmap string value)
    (rule_type : value) (file_path : string) :
  is_config_document cfg → is_config_document cfg' →
  cfg !! "rule" = Some (VDict rule) → rule !! "type" = Some rule_type →
  cfg' !! "rule" = Some (VDict rule') → rule' !! "type" = Some rule_type →
  (∀ field, has_field cfg field → has_field cfg' field) →
  ((∀ field, has_field cfg' field → has_field cfg field) →
   validate_alert_config cfg' file_path = validate_alert_config cfg file_path) ∧
  (ValidationPassed file_path ∈ printed (validate_alert_config cfg file_path) →
   ValidationPassed file_path ∈ printed (validate_alert_config cfg' file_path)) ∧
  (∀ missing',
     MissingFieldsReport file_path missing'
       ∈ printed (validate_alert_config cfg' file_path) →
     ∃ missing,
       MissingFieldsReport file_path missing
         ∈ printed (validate_alert_config cfg file_path) ∧
       sublist missing' missing).
Proof.
  intros Hcfg Hcfg' Hrule Htype Hrule' Htype' Hmore.
  destruct (validate_declared cfg rule rule_type file_path Hcfg Hrule Htype)
    as (advisory & required & Hrequired & ->).
  destruct (validate_declared cfg' rule' rule_type file_path Hcfg' Hrule' Htype')
    as (advisory' & required' & Hrequired' & ->).
  rewrite Hrequired in Hrequired'. injection Hrequired' as <- <-.
  assert (flattened_fields cfg ⊆ flattened_fields cfg') as Hsub.
  { intros field. rewrite !elem_of_flattened_has_field. apply Hmore. }
  assert (sublist (missing_from cfg' required) (missing_from cfg required))
    as Hsublist.
  { apply filter_sublist_weaken. intros field Habsent Hin. by apply Habsent, Hsub. }
  assert (∀ m, m ∈ advisory → m = UnknownRuleTypeWarning rule_type) as Hadv.
  { intros m Hin. apply advisory_no_verdict. by rewrite Hrequired. }
  split_and!.
  - intros Hless. do 3 f_equal. unfold missing_from.
    assert (flattened_fields cfg' = flattened_fields cfg) as ->; [|done].
    apply set_eq. intros field. rewrite !elem_of_flattened_has_field.
    split; auto.
  - cbn [printed]. rewrite !elem_of_app, !list_elem_of_singleton, !report_passed.
    intros [Hin|[_ Hnil]]; [by left|]. right. split; [done|].
    rewrite Hnil in Hsublist. by apply sublist_nil_r in Hsublist.
  - intros missing'. cbn [printed].
    rewrite elem_of_app, list_elem_of_singleton.
    intros [Hin|Hreport]; [by apply Hadv in Hin|].
    exists (missing_from cfg required).
    destruct (missing_from cfg' required) as [|f' l'] eqn:Hmissing'; [done|].
    injection Hreport as ->. split; [|done].
    apply elem_of_app. right. apply list_elem_of_singleton.
    destruct (missing_from cfg required); [|done].
    by apply sublist_nil_r in Hsublist.
Qed.

Lemma only_field_names_matter_witness :
  validate_alert_config Samples.alert_without_query_relaid "alert.toml"
  = validate_alert_config Samples.alert_without_query "alert.toml".
Proof.
  assert (flattened_fields Samples.alert_without_query
          = flattened_fields Samples.alert_without_query_relaid) as Hsame
    by (vm_compute; reflexivity).
  apply (only_field_names_matter
           Samples.alert_without_query Samples.alert_without_query_relaid
           {[ "type" := VStr "query"; "name" := VStr "X";
              "description" := VStr "d"; "risk_score" := VInt 1;
              "severity" := VStr "low" ]}
           {[ "type" := VStr "query"; "name" := VStr "Y" ]}
           (VStr "query") "alert.toml" I I eq_refl eq_refl eq_refl eq_refl).
  - intros field. rewrite <-!elem_of_flattened_has_field. by rewrite Hsame.
  - intros field. rewrite <-!elem_of_flattened_has_field. by rewrite Hsame.
Defined.

(** *** Documents that are not config documents *)

Lemma present_loop_raises (cfg : gmap string value) (names : list string)
    (present_fields : gset string) (t : string) (v : value) :
  (∀ name, name ∈ names → is_Some (cfg !! name)) →
  t ∈ names → cfg !! t = Some v → is_dict v = false →
  for_each (present_body cfg) names present_fields = Err AttributeError.
Proof.
  intros Hnames Ht Hlookup Hv. revert present_fields.
  induction names as [|name names IH]; intros present_fields.
  - by apply elem_of_nil in Ht.
  - cbn. destruct (Hnames name) as [v' Hlookup']; [by constructor|].
    rewrite Hlookup'. cbn.
    destruct (is_dict v') eqn:Hv'.
    + apply Is_true_true_2, is_dict_inv in Hv' as [table ->]. cbn.
      apply IH.
      * intros name' Hin. apply Hnames. by constructor.
      * apply elem_of_cons in Ht as [Heq|Ht]; [|done]. subst.
        rewrite Hlookup in Hlookup'. by injection Hlookup' as ->.
    + by destruct v'.
Qed.

Lemma present_loop_err_inv (cfg : gmap string value) (names : list string)
    (present_fields : gset string) (e : exn) :
  (∀ name, name ∈ names → is_Some (cfg !! name)) →
  for_each (present_body cfg) names present_fields = Err e →
  e = AttributeError.
Proof.
  revert present_fields.
  induction names as [|name names IH]; intros present_fields Hnames; [done|].
  cbn. destruct (Hnames name) as [v Hlookup]; [by constructor|].
  rewrite Hlookup. cbn. destruct (keys v) as [table_keys|e'] eqn:Hkeys; cbn.
  - apply IH. intros name' Hin. apply Hnames. by constructor.
  - intros [= <-]. destruct v; try done; by injection Hkeys as <-.
Qed.

Lemma table_names_present (cfg : gmap string value) (name : string) :
  name ∈ (map_to_list cfg).*1 ↔ is_Some (cfg !! name).
Proof.
  rewrite list_elem_of_fmap. split.
  - intros ([t v] & -> & Hin). apply elem_of_map_to_list in Hin. by exists v.
  - intros [v Hlookup]. exists (name, v). split; [done|].
    by apply elem_of_map_to_list.
Qed.

(** X13: A TOML file that declares a rule type and has a top-level value that
    is no table (a key outside any table) makes the script raise
    [AttributeError] after the warning, if any, and before any report:
    such a file is never validated, whatever its fields. *)
Theorem top_level_value_raises (cfg rule : gmap string value)
    (rule_type v : value) (t file_path : string) :
  cfg !! "rule" = Some (VDict rule) → rule !! "type" = Some rule_type →
  cfg !! t = Some v → is_dict v = false →
  validate_alert_config cfg file_path
  = IO (printed (get_required_fields rule_type)) (Err AttributeError).
Proof.
  intros Hrule Htype Hlookup Hv.
  destruct (get_required_fields_shape rule_type)
    as (advisory & extra & Hrequired & _).
  unfold validate_alert_config. cbn. rewrite Hrule. cbn. rewrite Htype. cbn.
  rewrite Hrequired.
  rewrite (present_loop_raises cfg _ ∅ t v); try done.
  - cbn. by rewrite (right_id_L [] (++)).
  - intros name. by rewrite table_names_present.
  - apply table_names_present. by eexists.
Qed.

Lemma top_level_value_raises_witness :
  validate_alert_config Samples.alert_with_title "alert.toml"
  = IO [] (Err AttributeError).
Proof.
  exact (top_level_value_raises Samples.alert_with_title
           {[ "type" := VStr "query"; "query" := VStr "q" ]}
           (VStr "query") (VStr "X") "title" "alert.toml"
           eq_refl eq_refl eq_refl eq_refl).
Defined.

Lemma validate_non_table_rule (cfg : gmap string value) (v : value)
    (file_path : string) :
  cfg !! "rule" = Some v → is_dict v = false →
  validate_alert_config cfg file_path
  = match contains "type" v with
    | Ok false => IO [RuleNotFoundError file_path] (Err (SystemExit 1))
    | _ => IO [] (Err TypeError)
    end.
Proof.
  intros Hrule Hv. unfold validate_alert_config. cbn. rewrite Hrule. cbn.
  destruct v; try done; cbn.
  - by destruct (str_contains "type" s).
  - by destruct (existsb _ l).
Qed.

(** X14: When [rule] is not a table the script prints no report: a scalar
    raises [TypeError] at the test for [type]; a string or array passes
    that test if it contains "type" and then raises [TypeError] at the
    subscript, and otherwise is reported as a missing declaration with
    exit status 1. *)
Theorem rule_not_a_table (cfg : gmap string value) (v : value)
    (file_path : string) :
  cfg !! "rule" = Some v → is_dict v = false →
  validate_alert_config cfg file_path
  = match v with
    | VStr s =>
        if str_contains "type" s then IO [] (Err TypeError)
        else IO [RuleNotFoundError file_path] (Err (SystemExit 1))
    | VList l =>
        if existsb (λ x, eq_str x "type") l then IO [] (Err TypeError)
        else IO [RuleNotFoundError file_path] (Err (SystemExit 1))
    | _ => IO [] (Err TypeError)
    end.
Proof.
  intros Hrule Hv. rewrite (validate_non_table_rule cfg v file_path Hrule Hv).
  by destruct v.
Qed.

Lemma rule_not_a_table_witness :
  validate_alert_config Samples.alert_with_rule_text "alert.toml"
  = IO [] (Err TypeError) ∧
  validate_alert_config {[ "rule" := VList [VStr "query"] ]} "alert.toml"
  = IO [RuleNotFoundError "alert.toml"] (Err (SystemExit 1)).
Proof.
  split.
  - exact (rule_not_a_table Samples.alert_with_rule_text (VStr "type = query")
             "alert.toml" eq_refl eq_refl).
  - exact (rule_not_a_table {[ "rule" := VList [VStr "query"] ]}
             (VList [VStr "query"]) "alert.toml" eq_refl eq_refl).
Defined.

(** *** Every way [validate_alert_config] can end *)

Lemma non_table_exists (tables : list (string * value)) :
  forallb is_dict tables.*2 = false →
  ∃ t v, (t, v) ∈ tables ∧ is_dict v = false.
Proof.
  induction tables as [|[t v] tables IH]; [done|]. cbn.
  destruct (is_dict v) eqn:Hv; cbn.
  - intros (t' & v' & Hin & Hv')%IH. exists t', v'. split; [by constructor|done].
  - intros _. exists t, v. split; [by constructor|done].
Qed.

Lemma present_loop_ok_inv (cfg : gmap string value) (present_fields : gset string) :
  for_each (present_body cfg) (map_to_list cfg).*1 ∅ = Ok present_fields →
  is_config_document cfg.
Proof.
  intros Hloop. destruct (is_config_document cfg) eqn:Hdoc; [done|].
  apply non_table_exists in Hdoc as (t & v & Hin & Hv).
  apply elem_of_map_to_list in Hin.
  rewrite (present_loop_raises cfg _ ∅ t v) in Hloop; try done.
  - intros name. by rewrite table_names_present.
  - apply table_names_present. by eexists.
Qed.

Lemma validate_cases (cfg : gmap string value) (file_path : string) :
  (declares_rule_type cfg = false ∧
   validate_alert_config cfg file_path
   = IO [RuleNotFoundError file_path] (Err (SystemExit 1))) ∨
  (∃ rule_type e,
     shape_error e ∧
     (validate_alert_config cfg file_path = IO [] (Err e) ∨
      validate_alert_config cfg file_path
      = IO (printed (get_required_fields rule_type)) (Err e))) ∨
  (∃ rule rule_type advisory required,
     is_config_document cfg ∧
     cfg !! "rule" = Some (VDict rule) ∧ rule !! "type" = Some rule_type ∧
     get_required_fields rule_type = IO advisory (Ok required) ∧
     validate_alert_config cfg file_path
     = IO (advisory ++ [report file_path (missing_from cfg required)]) (Ok tt)).
Proof.
  destruct (cfg !! "rule") as [v|] eqn:Hrule.
  2: { left. unfold declares_rule_type, validate_alert_config. cbn.
       by rewrite Hrule. }
  destruct (is_dict v) eqn:Hv.
  2: { rewrite (validate_non_table_rule cfg v file_path Hrule Hv).
       destruct (contains "type" v) as [[]|] eqn:Hc.
       - right. left. exists VNone, TypeError. split; [by left | by left].
       - left. split; [|done]. unfold declares_rule_type. rewrite Hrule.
         by destruct v.
       - right. left. exists VNone, TypeError. split; [by left | by left]. }
  apply Is_true_true_2, is_dict_inv in Hv as [rule ->].
  destruct (rule !! "type") as [rule_type|] eqn:Htype.
  2: { left. unfold declares_rule_type, validate_alert_config. cbn.
       rewrite Hrule. cbn. by rewrite Htype. }
  destruct (for_each (present_body cfg) (map_to_list cfg).*1 ∅)
    as [present_fields|e] eqn:Hloop.
  - right. right. apply present_loop_ok_inv in Hloop as Hdoc.
    destruct (validate_declared cfg rule rule_type file_path Hdoc Hrule Htype)
      as (advisory & required & Hrequired & Hvalidate).
    by exists rule, rule_type, advisory, required.
  - right. left. exists rule_type, AttributeError. split; [by right|]. right.
    assert (e = AttributeError) as ->.
    { eapply present_loop_err_inv; [|exact Hloop].
      intros name. by rewrite table_names_present. }
    destruct (get_required_fields_shape rule_type)
      as (advisory & extra & Hrequired & _).
    unfold validate_alert_config. cbn. rewrite Hrule. cbn. rewrite Htype. cbn.
    rewrite Hrequired, Hloop. cbn. by rewrite (right_id_L [] (++)).
Qed.

Lemma required_fields_known (rule_type : value) (required : list string) :
  outcome (get_required_fields rule_type) = Ok required →
  NoDup required ∧ required ⊆ known_fields.
Proof.
  unfold get_required_fields, known_fields, base_fields.
  repeat case_match; cbn; intros [= <-];
    (split;
     [apply NoDup_ListNoDup; repeat constructor; cbn; intuition discriminate
     |intros field Hin;
      repeat (apply elem_of_cons in Hin as [->|Hin]; [by repeat constructor|]);
      by apply elem_of_nil in Hin]).
Qed.

(** X15: Whatever the parsed TOML file, [validate_alert_config] fails in one
    of two ways only, and prints no report when it fails: it exits with
    status 1 after the error message, exactly when [rule] or its [type]
    is not declared, or it raises a [TypeError] or an [AttributeError]
    after at most the warning about the rule type.  No [KeyError]
    escapes. *)
Theorem failures_print_no_report (cfg : gmap string value)
    (file_path : string) (e : exn) :
  outcome (validate_alert_config cfg file_path) = Err e →
  (e = SystemExit 1 ∧
   printed (validate_alert_config cfg file_path) = [RuleNotFoundError file_path]) ∨
  ((e = TypeError ∨ e = AttributeError) ∧
   ∀ m, m ∈ printed (validate_alert_config cfg file_path) →
        ∃ rule_type, m = UnknownRuleTypeWarning rule_type).
Proof.
  intros Hfail.
  destruct (validate_cases cfg file_path)
    as [[_ Hexit]|[(rule_type & e' & He' & [Hraise|Hraise])
                  |(? & ? & ? & ? & _ & _ & _ & _ & Hreport)]];
    rewrite ?Hexit, ?Hraise, ?Hreport in *; cbn in Hfail; try done.
  - injection Hfail as <-. by left.
  - injection Hfail as <-. right. split; [done|]. by intros m ?%elem_of_nil.
  - injection Hfail as <-. right. split; [done|]. cbn [printed].
    intros m Hin. exists rule_type. by apply advisory_no_verdict.
Qed.

Lemma failures_print_no_report_witness :
  (AttributeError = SystemExit 1 ∧
   printed (validate_alert_config Samples.alert_with_title "alert.toml")
   = [RuleNotFoundError "alert.toml"]) ∨
  ((AttributeError = TypeError ∨ AttributeError = AttributeError) ∧
   ∀ m, m ∈ printed (validate_alert_config Samples.alert_with_title "alert.toml") →
        ∃ rule_type, m = UnknownRuleTypeWarning rule_type).
Proof.
  exact (failures_print_no_report Samples.alert_with_title "alert.toml"
           AttributeError eq_refl).
Defined.

(** X16: Whatever the parsed TOML file, a report of missing fields is printed
    only as the last output of a run that returns normally; it names
    the file it was given, and its list is non-empty, has no field
    twice, has none but the seven field names the script knows, and
    never "type". *)
Theorem missing_report_well_formed (cfg : gmap string value)
    (file_path reported : string) (missing : list string) :
  MissingFieldsReport reported missing
    ∈ printed (validate_alert_config cfg file_path) →
  outcome (validate_alert_config cfg file_path) = Ok tt ∧
  last (printed (validate_alert_config cfg file_path))
  = Some (MissingFieldsReport reported missing) ∧
  reported = file_path ∧ missing ≠ [] ∧ NoDup missing ∧
  missing ⊆ known_fields ∧ "type" ∉ missing.
Proof.
  intros Hin.
  destruct (validate_cases cfg file_path)
    as [[_ Hexit]|[(rule_type & e' & He' & [Hraise|Hraise])
                  |(rule & rule_type & advisory & required & Hdoc & Hrule
                    & Htype & Hrequired & Hreport)]];
    rewrite ?Hexit, ?Hraise, ?Hreport in *; cbn [printed outcome] in *.
  - by apply list_elem_of_singleton in Hin.
  - by apply elem_of_nil in Hin.
  - by apply advisory_no_verdict in Hin.
  - apply elem_of_app in Hin as [Hin|Hin%list_elem_of_singleton].
    { pose proof (advisory_no_verdict rule_type
                    (MissingFieldsReport reported missing)) as Hadv.
      rewrite Hrequired in Hadv. by apply Hadv in Hin. }
    rewrite last_snoc.
    destruct (missing_from cfg required) as [|f l] eqn:Hmissing; [done|].
    injection Hin as -> ->.
    destruct (required_fields_known rule_type required) as [Hnodup Hknown];
      [by rewrite Hrequired|].
    split_and!; try done; rewrite <-Hmissing; unfold missing_from.
    + by apply NoDup_filter.
    + intros field [_ ?]%list_elem_of_filter. by apply Hknown.
    + intros [Habsent _]%list_elem_of_filter. apply Habsent.
      apply elem_of_flattened_fields. by eexists "rule", rule.
Qed.

Lemma missing_report_well_formed_witness :
  outcome (validate_alert_config Samples.alert_without_query "alert.toml") = Ok tt ∧
  last (printed (validate_alert_config Samples.alert_without_query "alert.toml"))
  = Some (MissingFieldsReport "alert.toml" ["query"]) ∧
  "alert.toml" = "alert.toml" ∧ ["query"] ≠ [] ∧ NoDup ["query"] ∧
  ["query"] ⊆ known_fields ∧ "type" ∉ ["query"].
Proof.
  apply (missing_report_well_formed Samples.alert_without_query "alert.toml").
  vm_compute. constructor.
Defined.

End ValidationMore.
